(** * Cosmos retrieval pipeline: ingestion normalizer, vector index, search endpoint

    A shallow embedding of
      - [cosmos_airtable_ingestion_script.py] (text normalizer, batch
        embedding, index creation and upsert),
      - [query_pinecone_db.py] (query-time embedding and index query),
      - [backend/backend.py] (the [/search] endpoint and the answer
        synthesizer),
    together with the properties the specification states about them.

    Conventions.
      - A Python [str] is a [string]; a character stands for a code point
        below 256.
      - A Python exception is a value of [exn]; a function that can raise
        returns a [result].
      - Calls that leave the process (model loading, encoding, index and
        generative-model calls) are recorded in a trace of [event]s, in the
        order in which the code issues them.  Console output ([print]) is
        not recorded. *)

From Stdlib Require Import ZArith QArith Qabs Ascii String List Bool Lia Sorted.
From Stdlib Require Import DecimalString.
From stdpp Require Import gmap strings list fin_maps.

Set Warnings "-register-all".
Local Open Scope Z_scope.
Local Open Scope string_scope.

(* ===================================================================== *)
(** ** Python strings                                                     *)
(* ===================================================================== *)

Module Py.

(** [str.isspace] on one character, for code points below 256: TAB..CR,
    FS..US, SPACE, NEL and NBSP. *)
Definition isspace (c : ascii) : bool :=
  let n := N_of_ascii c in
  ((9 <=? n)%N && (n <=? 13)%N) || ((28 <=? n)%N && (n <=? 32)%N)
  || (n =? 133)%N || (n =? 160)%N.

Fixpoint lstrip (s : string) : string :=
  match s with
  | EmptyString => EmptyString
  | String c rest => if isspace c then lstrip rest else s
  end.

Fixpoint rstrip (s : string) : string :=
  match s with
  | EmptyString => EmptyString
  | String c rest =>
      match rstrip rest with
      | EmptyString => if isspace c then EmptyString else String c EmptyString
      | r => String c r
      end
  end.

(** [s.strip()] *)
Definition strip (s : string) : string := rstrip (lstrip s).

(** [sep.join(parts)] *)
Fixpoint join (sep : string) (parts : list string) : string :=
  match parts with
  | [] => EmptyString
  | [p] => p
  | p :: rest => p ++ sep ++ join sep rest
  end.

(** [str(n)] for an [int]. *)
Definition str_int (z : Z) : string := NilZero.string_of_int (Z.to_int z).

(** [str(n)] for a length. *)
Definition str_len (n : nat) : string := str_int (Z.of_nat n).

(** [str(b)] for a [bool]. *)
Definition str_bool (b : bool) : string := if b then "True" else "False".

(** Every character of [s] is white space (vacuously so for [""]). *)
Fixpoint all_space (s : string) : bool :=
  match s with
  | EmptyString => true
  | String c rest => isspace c && all_space rest
  end.

(** [needle in s] *)
Fixpoint contains (needle s : string) : bool :=
  String.prefix needle s ||
  match s with
  | EmptyString => false
  | String _ rest => contains needle rest
  end.

(** Truthiness of a [str]: [bool(s)]. *)
Definition truthy_str (s : string) : bool :=
  match s with EmptyString => false | _ => true end.

End Py.

(* ===================================================================== *)
(** ** Exceptions and results                                             *)
(* ===================================================================== *)

(** The exceptions the modelled code raises or lets through.
    [HTTPException] is FastAPI's; every other exception is an [Exception]
    with its class name and its [str(e)]. *)
Inductive exn : Type :=
| HTTPException (status_code : Z) (detail : string)
| Exception (cls : string) (msg : string).

Inductive result (A : Type) : Type :=
| Ok (a : A)
| Raise (e : exn).
Arguments Ok {A} a.
Arguments Raise {A} e.

(** [str(e)] *)
Definition str_exn (e : exn) : string :=
  match e with
  | HTTPException _ d => d
  | Exception _ m => m
  end.

(* ===================================================================== *)
(** ** Text normalizer ([cosmos_airtable_ingestion_script.py])            *)
(* ===================================================================== *)

Module Ingest.

(** A JSON-like Python value, as a record field can hold it.  A [float] is
    carried as the text [str] gives for it ([repr] round-trips, so the text
    identifies the float).  A [dict] keeps its insertion order. *)
Inductive pyval : Type :=
| PNone
| PBool (b : bool)
| PInt (z : Z)
| PFloat (repr : string)
| PStr (s : string)
| PList (items : list pyval)
| PDict (entries : list (string * pyval)).

(** [d.get(key)] on an insertion-ordered dict with distinct keys. *)
Fixpoint dict_get (key : string) (d : list (string * pyval)) : option pyval :=
  match d with
  | [] => None
  | (k, v) :: rest => if String.eqb k key then Some v else dict_get key rest
  end.

(** [isinstance(value, (str, int, float))]; [bool] is a subclass of [int]. *)
Definition isinstance_str_int_float (v : pyval) : bool :=
  match v with
  | PStr _ | PInt _ | PFloat _ | PBool _ => true
  | _ => false
  end.

(** [isinstance(i, str)] *)
Definition isinstance_str (v : pyval) : bool :=
  match v with PStr _ => true | _ => false end.

(** [isinstance(value, list) and all(isinstance(i, str) for i in value)] *)
Definition is_str_list (v : pyval) : bool :=
  match v with
  | PList items => forallb isinstance_str items
  | _ => false
  end.

(** The text an f-string puts in for [{value}], for the values that pass
    [isinstance_str_int_float]. *)
Definition format_value (v : pyval) : string :=
  match v with
  | PStr s => s
  | PInt z => Py.str_int z
  | PBool b => Py.str_bool b
  | PFloat r => r
  | _ => EmptyString
  end.

(** The strings of a list of [str] values. *)
Fixpoint str_items (items : list pyval) : list string :=
  match items with
  | [] => []
  | PStr s :: rest => s :: str_items rest
  | _ :: rest => str_items rest
  end.

(** The inner loop of [prepare_texts_for_encoding]:
    [for field_name, value in fields.items(): ...]. *)
Fixpoint text_parts (fields : list (string * pyval)) : list string :=
  match fields with
  | [] => []
  | (field_name, value) :: rest =>
      if isinstance_str_int_float value then
        (field_name ++ ": " ++ format_value value) :: text_parts rest
      else if is_str_list value then
        match value with
        | PList items =>
            (field_name ++ ": " ++ Py.join ", " (str_items items))
              :: text_parts rest
        | _ => text_parts rest
        end
      else text_parts rest
  end.

(** One iteration of the outer loop: [record.get('fields', {})], then the
    inner loop, then [". ".join(text_parts).strip()].  [.items()] exists
    only on a dict. *)
Definition prepare_text (record : list (string * pyval)) : result string :=
  match dict_get "fields" record with
  | None => Ok (Py.strip (Py.join ". " (text_parts [])))
  | Some (PDict fields) => Ok (Py.strip (Py.join ". " (text_parts fields)))
  | Some _ =>
      Raise (Exception "AttributeError" "object has no attribute 'items'")
  end.

(** [prepare_texts_for_encoding(records)] *)
Fixpoint prepare_texts_for_encoding
    (records : list (list (string * pyval))) : result (list string) :=
  match records with
  | [] => Ok []
  | record :: rest =>
      match prepare_text record with
      | Raise e => Raise e
      | Ok full_text =>
          match prepare_texts_for_encoding rest with
          | Raise e => Raise e
          | Ok prepared_texts => Ok (full_text :: prepared_texts)
          end
      end
  end.

End Ingest.

(* ===================================================================== *)
(** ** Calls that leave the process                                       *)
(* ===================================================================== *)

(** One entry of the call trace. *)
Inductive event : Type :=
| EvLoadModel (name : string)
    (** [SentenceTransformer(name)]: a model instance is constructed *)
| EvEncode (texts : list string)
    (** [model.encode(texts, convert_to_numpy=True)] *)
| EvIndexQuery (namespace : string) (top_k : Z) (include_metadata : bool)
    (** [index.query(vector=..., top_k=..., include_metadata=...,
        namespace=...)] *)
| EvGenerate (prompt : string)
    (** [gemini_model.generate_content(prompt)] *).

(** A computation that issues calls and may raise: the calls issued, in
    order, and the outcome. *)
Definition M (A : Type) : Type := (list event * result A)%type.

Definition ret {A} (a : A) : M A := ([], Ok a).
Definition raise {A} (e : exn) : M A := ([], Raise e).

Definition bind {A B} (m : M A) (f : A -> M B) : M B :=
  match m with
  | (t1, Raise e) => (t1, Raise e)
  | (t1, Ok a) => let '(t2, r) := f a in ((t1 ++ t2)%list, r)
  end.

(** [try: m except Exception as e: handler(e)] *)
Definition try_except {A} (m : M A) (handler : exn -> M A) : M A :=
  match m with
  | (t1, Ok a) => (t1, Ok a)
  | (t1, Raise e) => let '(t2, r) := handler e in ((t1 ++ t2)%list, r)
  end.

(** One external call: the event, then whatever the callee answers. *)
Definition call {A} (ev : event) (answer : result A) : M A := ([ev], answer).

Notation "'do' x <- m ; k" := (bind m (fun x => k))
  (at level 10, x name, m at level 100, k at level 200).

(** The calls of a computation and how many of them construct a model. *)
Definition trace {A} (m : M A) : list event := fst m.
Definition outcome {A} (m : M A) : result A := snd m.

Definition is_load (ev : event) : bool :=
  match ev with EvLoadModel _ => true | _ => false end.

Definition model_loads (t : list event) : nat :=
  length (List.filter is_load t).

(* ===================================================================== *)
(** ** Embedding engine                                                   *)
(* ===================================================================== *)

Definition EMBEDDING_MODEL_NAME : string := "all-MiniLM-L12-v2".
Definition INDEX_NAME : string := "cosmos-airtable-index".
Definition NAMESPACE : string := "airtable-namespace".

(** An embedding: a finite float is a rational. *)
Abbreviation vector := (list Q).

(** A loaded [SentenceTransformer]: what [encode] answers for a batch. *)
Record SentenceTransformer : Type := {
  encode : list string -> result (list vector)
}.

(** The sentence-transformers library as the process sees it: what
    constructing a model by name answers. *)
Record Transformers : Type := {
  load_model : string -> result SentenceTransformer
}.

(** [generate_vectors(texts)] of the ingestion script.  The progress line
    after [encode] reads [vectors.shape[1]], which an empty batch does not
    have. *)
Definition generate_vectors (lib : Transformers) (texts : list string)
    : M (list vector) :=
  do model <- call (EvLoadModel EMBEDDING_MODEL_NAME)
                (load_model lib EMBEDDING_MODEL_NAME) ;
  do vectors <- call (EvEncode texts) (encode model texts) ;
  match vectors with
  | [] => raise (Exception "IndexError" "tuple index out of range")
  | _ => ret vectors
  end.

(** [embed_query(query)] of [query_pinecone_db.py]. *)
Definition embed_query (lib : Transformers) (query : string) : M vector :=
  do model <- call (EvLoadModel EMBEDDING_MODEL_NAME)
                (load_model lib EMBEDDING_MODEL_NAME) ;
  do vectors <- call (EvEncode [query]) (encode model [query]) ;
  match vectors with
  | [] => raise (Exception "IndexError" "index 0 is out of bounds")
  | v :: _ => ret v
  end.

(** The calls of consecutive [embed_query] calls in one process, one per
    query, whatever each call's outcome. *)
Definition embed_calls (lib : Transformers) (queries : list string)
    : list event :=
  flat_map (fun q => trace (embed_query lib q)) queries.

(* ===================================================================== *)
(** ** Vector index                                                       *)
(* ===================================================================== *)

(** Metadata as the ingestion script writes it: text under text keys, in
    insertion order. *)
Abbreviation metadata_t := (list (string * string)).

(** One match of an index query ([results.matches[i]]): [metadata] is
    absent when the store returns none. *)
Record ScoredVector : Type := {
  sv_id : string;
  sv_score : Q;
  sv_metadata : option metadata_t
}.

(** An index handle as the query code uses it: what [index.query] answers
    for a vector, a [top_k], [include_metadata] and a namespace. *)
Record Index : Type := {
  ix_query : vector -> Z -> bool -> string -> result (list ScoredVector)
}.

Module Pinecone.

(** A stored entry: the vector and its metadata, kept under its id. *)
Record stored : Type := {
  values : vector;
  metadata : metadata_t
}.

(** One named index: its declared dimension and metric, and its
    namespaces, each a map from id to entry. *)
Record index_state : Type := {
  dimension : Z;
  metric : string;
  namespaces : gmap string (gmap string stored)
}.

(** The vector store behind one API key: the scoring function of each
    metric name, and the indexes by name. *)
Record client : Type := {
  similarity : string -> vector -> vector -> Q;
  indexes : gmap string index_state
}.

(** One entry of an upsert batch: [{"id": ..., "values": ...,
    "metadata": ...}]. *)
Record record : Type := {
  r_id : string;
  r_values : vector;
  r_metadata : metadata_t
}.

(** Modelled from the spec: [pc.has_index(name)], the existence check of
    the vector store, which is by name only. *)
Definition has_index (pc : client) (name : string) : bool :=
  bool_decide (is_Some (indexes pc !! name)).

(** Modelled from the spec: [pc.create_index(name, dimension, metric)] of
    the vector store: a new, empty index under [name]; the store refuses a
    name that is taken. *)
Definition create_index (pc : client) (name : string) (dim : Z)
    (met : string) : client * result unit :=
  if has_index pc name then
    (pc, Raise (Exception "PineconeApiException" "index already exists"))
  else
    ({| similarity := similarity pc;
        indexes := <[name := {| dimension := dim; metric := met;
                                namespaces := ∅ |}]> (indexes pc) |},
     Ok tt).

(** Modelled from the spec: one entry written by upsert, which replaces any
    existing entry sharing its id within the namespace. *)
Definition put (entries : gmap string stored) (r : record)
    : gmap string stored :=
  <[r_id r := {| values := r_values r; metadata := r_metadata r |}]> entries.

(** Modelled from the spec: [index.upsert(vectors, namespace)] of the
    vector store, the batch written in order into the namespace (which is
    created on first use).  The compatibility of a vector with the index's
    declared dimension is not part of this contract. *)
Definition upsert (ix : index_state) (ns : string) (batch : list record)
    : index_state :=
  {| dimension := dimension ix;
     metric := metric ix;
     namespaces :=
       <[ns := fold_left put batch (default ∅ (namespaces ix !! ns))]>
         (namespaces ix) |}.

(** Insertion of a match into a list ranked by descending score. *)
Fixpoint insert_desc (m : ScoredVector) (l : list ScoredVector)
    : list ScoredVector :=
  match l with
  | [] => [m]
  | x :: rest =>
      if Qle_bool (sv_score x) (sv_score m) then m :: l
      else x :: insert_desc m rest
  end.

Definition rank (l : list ScoredVector) : list ScoredVector :=
  foldr insert_desc [] l.

(** The match of one stored entry against a query vector. *)
Definition score_entry (sim : vector -> vector -> Q) (v : vector)
    (include_metadata : bool) (kv : string * stored) : ScoredVector :=
  {| sv_id := fst kv;
     sv_score := sim v (values (snd kv));
     sv_metadata := if include_metadata then Some (metadata (snd kv))
                    else None |}.

(** Modelled from the spec: [index.query(vector, top_k, include_metadata,
    namespace)] of the vector store: at most [top_k] entries ranked by the
    index's fixed metric; [top_k] must be a positive integer; an empty or
    absent namespace gives an empty sequence. *)
Definition query (sim : string -> vector -> vector -> Q) (ix : index_state)
    (v : vector) (top_k : Z) (include_metadata : bool) (ns : string)
    : result (list ScoredVector) :=
  if (top_k <=? 0)%Z then
    Raise (Exception "PineconeApiException" "top_k must be a positive integer")
  else
    match namespaces ix !! ns with
    | None => Ok []
    | Some entries =>
        Ok (take (Z.to_nat top_k)
              (rank (map (score_entry (sim (metric ix)) v include_metadata)
                         (map_to_list entries))))
    end.

(** Modelled from the spec: [stats(handle).total_vector_count] of the
    vector store: the entries of all namespaces. *)
Definition total_vector_count (ix : index_state) : nat :=
  map_fold (fun _ entries n => (size entries + n)%nat) 0%nat (namespaces ix).

(** [pc.Index(name)]: the handle the query code holds.  A name that is not
    there answers every query with an error. *)
Definition Index_of (pc : client) (name : string) : Index :=
  {| ix_query := fun v top_k include_metadata ns =>
       match indexes pc !! name with
       | Some ix => query (similarity pc) ix v top_k include_metadata ns
       | None => Raise (Exception "NotFoundException" "index not found")
       end |}.

End Pinecone.

(** One item of the ingestion payload, as [create_vector_db_payload]
    builds it (the [original_record] entry is not read afterwards). *)
Record payload_item : Type := {
  airtable_id : string;
  searchable_text : string;
  payload_vector : vector
}.

(** Lines 126-136 of [insert_into_vector_db]: the index is created, with
    dimension 384 and the cosine metric, when [has_index] says that the
    name is free. *)
Definition ensure_index (pc : Pinecone.client)
    : Pinecone.client * result unit :=
  if negb (Pinecone.has_index pc INDEX_NAME) then
    Pinecone.create_index pc INDEX_NAME 384 "cosine"
  else (pc, Ok tt).

(** Lines 141-153: the payload in the store's record format. *)
Definition pinecone_records (payload : list payload_item)
    : list Pinecone.record :=
  map (fun record =>
         {| Pinecone.r_id := airtable_id record;
            Pinecone.r_values := payload_vector record;
            Pinecone.r_metadata :=
              [("airtable_id", airtable_id record);
               ("searchable_text", searchable_text record)] |})
      payload.

(** [dense_index.upsert(vectors=..., namespace=...)] through the handle of
    the index called [name]. *)
Definition upsert_index (pc : Pinecone.client) (name ns : string)
    (batch : list Pinecone.record) : Pinecone.client * result unit :=
  match Pinecone.indexes pc !! name with
  | None => (pc, Raise (Exception "NotFoundException" "index not found"))
  | Some ix =>
      ({| Pinecone.similarity := Pinecone.similarity pc;
          Pinecone.indexes :=
            <[name := Pinecone.upsert ix ns batch]> (Pinecone.indexes pc) |},
       Ok tt)
  end.

(** [insert_into_vector_db(payload)]: the store before, the store after
    and the outcome.  The wait and the statistics printed at the end leave
    the store as it is. *)
Definition insert_into_vector_db (pc : Pinecone.client)
    (payload : list payload_item) : Pinecone.client * result unit :=
  match ensure_index pc with
  | (pc1, Raise e) => (pc1, Raise e)
  | (pc1, Ok _) =>
      upsert_index pc1 INDEX_NAME "airtable-namespace"
                   (pinecone_records payload)
  end.

(** The entry stored under [id] in namespace [ns] of the index [name]. *)
Definition stored_entry (pc : Pinecone.client) (name ns id : string)
    : option Pinecone.stored :=
  ix ← Pinecone.indexes pc !! name;
  entries ← Pinecone.namespaces ix !! ns;
  entries !! id.

(** [query_pinecone(index, query_vector, top_k, include_metadata)] of
    [query_pinecone_db.py]: [results.matches] of the index's answer. *)
Definition query_pinecone (index : Index) (query_vector : vector)
    (top_k : Z) (include_metadata : bool) : M (list ScoredVector) :=
  call (EvIndexQuery NAMESPACE top_k include_metadata)
       (ix_query index query_vector top_k include_metadata NAMESPACE).

(* ===================================================================== *)
(** ** Search service ([backend/backend.py])                              *)
(* ===================================================================== *)

Module Backend.

(** The request model: [query: str], [top_k: int = 5]. *)
Record SearchRequest : Type := {
  query : string;
  top_k : Z
}.

(** A request built from a body in which [top_k] may be left out. *)
Definition SearchRequest_of (body_query : string) (body_top_k : option Z)
    : SearchRequest :=
  {| query := body_query;
     top_k := match body_top_k with Some k => k | None => 5 end |}.

(** The response models.  [metadata: Dict[str, Any]] admits no null. *)
Record SearchResult : Type := {
  score : Q;
  id : string;
  metadata : metadata_t
}.

Record SearchResponse : Type := {
  results : list SearchResult;
  response_query : string;
  total_results : Z;
  ai_response : string
}.

(** The answer of the generative model: reading [response.text] can
    itself raise (blocked or empty candidates). *)
Record GenerateContentResponse : Type := {
  text : result string
}.

Record GenerativeModel : Type := {
  generate_content : string -> result GenerateContentResponse
}.

(** The module-level globals [pinecone_index] and [gemini_model], [None]
    until startup has set them. *)
Record app_state : Type := {
  pinecone_index : option Index;
  gemini_model : option GenerativeModel
}.

Definition nl : string := String (ascii_of_nat 10) EmptyString.

(** A non-negative rational rounded to the nearest integer, ties to
    even. *)
Definition round_half_even (q : Q) : Z :=
  let n := Qnum q in
  let d := Z.pos (Qden q) in
  let fl := (n / d)%Z in
  let r2 := (2 * (n mod d))%Z in
  if (r2 <? d)%Z then fl
  else if (d <? r2)%Z then (fl + 1)%Z
  else if Z.even fl then fl else (fl + 1)%Z.

(** Three decimal digits, zero-padded. *)
Definition pad3 (m : Z) : string :=
  let digits := Py.str_int m in
  if (m <? 10)%Z then "00" ++ digits
  else if (m <? 100)%Z then "0" ++ digits
  else digits.

(** [f"{x:.3f}"] *)
Definition format_3f (x : Q) : string :=
  let m := round_half_even (Qabs x * 1000) in
  (if (Qnum x <? 0)%Z then "-" else "")
  ++ Py.str_int (m / 1000) ++ "." ++ pad3 (m mod 1000).

(** [metadata.get(key, default)] *)
Fixpoint metadata_get (key default : string) (md : metadata_t) : string :=
  match md with
  | [] => default
  | (k, v) :: rest =>
      if String.eqb k key then v else metadata_get key default rest
  end.

(** The loop over [enumerate(search_results, 1)], from position [i]. *)
Fixpoint context_parts (i : nat) (search_results : list SearchResult)
    : list string :=
  match search_results with
  | [] => []
  | result :: rest =>
      ("Result " ++ Py.str_len i ++ " (Score: " ++ format_3f (score result)
       ++ "):" ++ nl
       ++ metadata_get "searchable_text" "No text available" (metadata result)
       ++ nl)
      :: context_parts (S i) rest
  end.

(** The prompt for the generative model. *)
Definition build_prompt (query : string) (search_results : list SearchResult)
    : string :=
  let context := Py.join nl (context_parts 1 search_results) in
  nl
  ++ "You are a helpful assistant that answers questions based on the provided search results from a user information database." ++ nl
  ++ nl
  ++ "Original Query: " ++ query ++ nl
  ++ nl
  ++ "Search Results:" ++ nl
  ++ context ++ nl
  ++ nl
  ++ "Please provide a comprehensive, human-readable answer to the original query based on the search results above. " ++ nl
  ++ "- Be specific and cite relevant details from the case studies" ++ nl
  ++ "- If the results don't contain enough information to fully answer the query, mention this" ++ nl
  ++ "- Keep the response informative but concise" ++ nl
  ++ "- Use a professional, helpful tone" ++ nl
  ++ nl
  ++ "Answer:" ++ nl.

(** The fallback of the [except] branch. *)
Definition fallback (n : nat) : string :=
  "I found " ++ Py.str_len n
  ++ " relevant results, but encountered an error generating a detailed response. Please check the individual results below.".

(** What the generative model, as the process holds it, answers for a
    prompt: [gemini_model.generate_content(prompt)], then [response.text]. *)
Definition generate (st : app_state) (prompt : string) : M string :=
  match gemini_model st with
  | None =>
      raise (Exception "AttributeError"
               "'NoneType' object has no attribute 'generate_content'")
  | Some model =>
      do response <- call (EvGenerate prompt) (generate_content model prompt) ;
      ([], text response)
  end.

(** [generate_ai_response(query, search_results)] *)
Definition generate_ai_response (st : app_state) (query : string)
    (search_results : list SearchResult) : M string :=
  try_except
    (generate st (build_prompt query search_results))
    (fun e => ret (fallback (length search_results))).

(** [match.metadata or {}] *)
Definition metadata_or_empty (md : option metadata_t) : metadata_t :=
  match md with
  | Some (kv :: rest) => kv :: rest
  | Some [] => []
  | None => []
  end.

(** One iteration of the conversion loop of [search_endpoint]. *)
Definition to_search_result (m : ScoredVector) : SearchResult :=
  {| score := sv_score m;
     id := sv_id m;
     metadata := metadata_or_empty (sv_metadata m) |}.

(** The two [except] clauses of [search_endpoint]. *)
Definition search_handler {A} (e : exn) : M A :=
  match e with
  | HTTPException _ _ => raise e
  | Exception _ _ =>
      raise (HTTPException 500 ("Search failed: " ++ str_exn e))
  end.

(** [search_endpoint(request)] *)
Definition search_endpoint (lib : Transformers) (st : app_state)
    (request : SearchRequest) : M SearchResponse :=
  try_except
    (match pinecone_index st with
     | None => raise (HTTPException 500 "Pinecone not initialized")
     | Some index =>
         if negb (Py.truthy_str (Py.strip (query request))) then
           raise (HTTPException 400 "Query cannot be empty")
         else
           do query_vector <- embed_query lib (query request) ;
           do matches <- query_pinecone index query_vector (top_k request) true ;
           let search_results := map to_search_result matches in
           do answer <- generate_ai_response st (query request) search_results ;
           ret {| results := search_results;
                  response_query := query request;
                  total_results := Z.of_nat (length search_results);
                  ai_response := answer |}
     end)
    search_handler.

(** The endpoint past its two guards, for the proofs below. *)
Definition search_body (lib : Transformers) (st : app_state)
    (index : Index) (request : SearchRequest) : M SearchResponse :=
  do query_vector <- embed_query lib (query request) ;
  do matches <- query_pinecone index query_vector (top_k request) true ;
  do answer <- generate_ai_response st (query request)
                 (map to_search_result matches) ;
  ret {| results := map to_search_result matches;
         response_query := query request;
         total_results := Z.of_nat (length (map to_search_result matches));
         ai_response := answer |}.

(** The process environment and the services startup reaches. *)
Record environ : Type := {
  PINECONE_API_KEY : option string;
  GEMINI_API_KEY : option string
}.

(** [not api_key] for [os.environ.get(...)] *)
Definition missing (key : option string) : bool :=
  match key with
  | None => true
  | Some k => negb (Py.truthy_str k)
  end.

(** [setup_pinecone()] of [query_pinecone_db.py] *)
Definition setup_pinecone (env : environ) (pc : Pinecone.client)
    : result Index :=
  if missing (PINECONE_API_KEY env) then
    Raise (Exception "OSError" "PINECONE_API_KEY environment variable not set. Please configure your Pinecone API key.")
  else if negb (Pinecone.has_index pc INDEX_NAME) then
    Raise (Exception "OSError" ("Index '" ++ INDEX_NAME ++ "' not found. Please run the ingestion script first."))
  else Ok (Pinecone.Index_of pc INDEX_NAME).

(** [setup_gemini()]: [genai] is what constructing the named model
    answers. *)
Definition setup_gemini (env : environ)
    (genai : string -> result GenerativeModel) : result GenerativeModel :=
  if missing (GEMINI_API_KEY env) then
    Raise (Exception "OSError" "GEMINI_API_KEY environment variable not set. Please configure your Gemini API key.")
  else genai "gemini-2.0-flash-lite".

(** [startup_event()]: both globals are set, or startup raises. *)
Definition startup_event (env : environ) (pc : Pinecone.client)
    (genai : string -> result GenerativeModel) : result app_state :=
  match setup_pinecone env pc with
  | Raise e => Raise e
  | Ok index =>
      match setup_gemini env genai with
      | Raise e => Raise e
      | Ok model =>
          Ok {| pinecone_index := Some index; gemini_model := Some model |}
      end
  end.

End Backend.

(* ===================================================================== *)
(** ** The specification's wording                                        *)
(* ===================================================================== *)

Module Spec.
Import Ingest.

(** "a scalar (string/number/boolean)" *)
Definition is_scalar (v : pyval) : bool :=
  match v with
  | PStr _ => true
  | PInt _ => true
  | PFloat _ => true
  | PBool _ => true
  | _ => false
  end.

(** "a list whose every element is a string" *)
Definition is_string_list (v : pyval) : bool :=
  match v with
  | PList items =>
      forallb (fun i => match i with PStr _ => true | _ => false end) items
  | _ => false
  end.

(** "include it only if its value is a scalar or a list whose every
    element is a string" *)
Definition eligible (field : string * pyval) : bool :=
  is_scalar (snd field) || is_string_list (snd field).

(** The text of a value: a scalar as [str] prints it, a list "joined with
    [", "]". *)
Definition value_text (v : pyval) : string :=
  match v with
  | PStr s => s
  | PInt z => Py.str_int z
  | PFloat r => r
  | PBool b => Py.str_bool b
  | PList items =>
      Py.join ", "
        (omap (fun i => match i with PStr s => Some s | _ => None end) items)
  | _ => EmptyString
  end.

(** "emit [{field_name}: {value}]" *)
Definition fragment (field : string * pyval) : string :=
  fst field ++ ": " ++ value_text (snd field).

(** "Join included fragments with [". "]; strip leading/trailing
    whitespace." *)
Definition normalize (fields : list (string * pyval)) : string :=
  Py.strip (Py.join ". " (map fragment (List.filter eligible fields))).

(** A record as the data model has it: [fields], when present, is a
    mapping. *)
Definition well_formed (record : list (string * pyval)) : bool :=
  match dict_get "fields" record with
  | None => true
  | Some (PDict _) => true
  | Some _ => false
  end.

(** The fields of a record ([{}] when it has none). *)
Definition fields_of (record : list (string * pyval))
    : list (string * pyval) :=
  match dict_get "fields" record with
  | Some (PDict fields) => fields
  | _ => []
  end.

(** "a record with no eligible fields" *)
Definition no_eligible_field (record : list (string * pyval)) : bool :=
  forallb (fun f => negb (eligible f)) (fields_of record).

(** Scores "non-increasing across the returned ordered sequence". *)
Definition non_increasing (scores : list Q) : Prop :=
  StronglySorted (fun a b => (b <= a)%Q) scores.

(** "a request with a non-positive top_k is rejected with a validation
    error ... before any embedding or index call": the claim about
    [search_endpoint] in a started service, as a proposition. *)
Definition rejects_nonpositive_top_k : Prop :=
  forall lib st index request,
    Backend.pinecone_index st = Some index ->
    (Backend.top_k request <= 0)%Z ->
    trace (Backend.search_endpoint lib st request) = []
    /\ exists code detail,
         outcome (Backend.search_endpoint lib st request)
           = Raise (HTTPException code detail)
         /\ (400 <= code < 500)%Z.

(** "query-time code must likewise reuse a cached model instance across
    repeated queries within a process": at most one model is constructed,
    however many queries are embedded. *)
Definition model_loaded_at_most_once : Prop :=
  forall lib queries, (model_loads (embed_calls lib queries) <= 1)%nat.

End Spec.

(* ===================================================================== *)
(** ** Sample data                                                        *)
(* ===================================================================== *)

Module Sample.
Import Ingest.

(** The record of the end-to-end scenario. *)
Definition ada : list (string * pyval) :=
  [("id", PStr "r1");
   ("fields", PDict [("Name", PStr "Ada"); ("Role", PStr "Engineer")])].

(** A record whose only fields are an attachment list and a null. *)
Definition attachments_only : list (string * pyval) :=
  [("id", PStr "r2");
   ("fields", PDict [("Files", PList [PDict [("url", PStr "u")]]);
                     ("Notes", PNone)])].

(** A two-dimensional embedding model that always loads and encodes. *)
Definition toy_model : SentenceTransformer :=
  {| encode := fun texts => Ok (map (fun _ => [1; 0]%Q) texts) |}.

Definition toy_lib : Transformers :=
  {| load_model := fun _ => Ok toy_model |}.

(** The dot product, as the scoring function of every metric name. *)
Fixpoint dot (a b : vector) : Q :=
  match a, b with
  | x :: a', y :: b' => (x * y + dot a' b')%Q
  | _, _ => 0%Q
  end.

Definition empty_store : Pinecone.client :=
  {| Pinecone.similarity := fun _ => dot; Pinecone.indexes := ∅ |}.

(** A store whose index of the configured name was created elsewhere,
    with another dimension and metric. *)
Definition foreign_store : Pinecone.client :=
  {| Pinecone.similarity := fun _ => dot;
     Pinecone.indexes :=
       {[ INDEX_NAME := {| Pinecone.dimension := 3;
                           Pinecone.metric := "euclidean";
                           Pinecone.namespaces := ∅ |} ]} |}.

Definition payload : list payload_item :=
  [ {| airtable_id := "r1"; searchable_text := "Name: Ada. Role: Engineer";
       payload_vector := [1; 0]%Q |};
    {| airtable_id := "r2"; searchable_text := "Name: Bob";
       payload_vector := [0; 1]%Q |};
    {| airtable_id := "r3"; searchable_text := "Name: Cy";
       payload_vector := [(1#2); (1#2)]%Q |} ].

(** The store after one ingestion run into the empty store. *)
Definition loaded_store : Pinecone.client :=
  fst (insert_into_vector_db empty_store payload).

(** A generative model whose every call fails (quota). *)
Definition failing_model : Backend.GenerativeModel :=
  {| Backend.generate_content := fun _ =>
       Raise (Exception "ResourceExhausted" "quota exceeded") |}.

(** A generative model that answers with a fixed text. *)
Definition echo_model : Backend.GenerativeModel :=
  {| Backend.generate_content := fun _ =>
       Ok {| Backend.text := Ok "answer" |} |}.

Definition state (model : Backend.GenerativeModel) : Backend.app_state :=
  {| Backend.pinecone_index := Some (Pinecone.Index_of loaded_store INDEX_NAME);
     Backend.gemini_model := Some model |}.

(** An index whose single match carries no metadata. *)
Definition bare_index : Index :=
  {| ix_query := fun _ _ _ _ =>
       Ok [ {| sv_id := "r1"; sv_score := 1; sv_metadata := None |} ] |}.

Definition bare_state : Backend.app_state :=
  {| Backend.pinecone_index := Some bare_index;
     Backend.gemini_model := Some echo_model |}.

Definition uninitialized : Backend.app_state :=
  {| Backend.pinecone_index := None; Backend.gemini_model := None |}.

End Sample.

(* ===================================================================== *)
(** ** Payload assembly ([cosmos_airtable_ingestion_script.py])           *)
(* ===================================================================== *)

Module Payload.
Import Ingest.

(** One dict of the payload list: [airtable_id] and [original_record] are
    whatever the record holds under ['id'] and ['fields']. *)
Record payload_dict : Type := {
  pd_airtable_id : pyval;
  pd_original_record : pyval;
  pd_searchable_text : string;
  pd_vector : vector
}.

(** [d[key]]: a missing key raises [KeyError(key)]. *)
Definition dict_item (key : string) (d : list (string * pyval))
    : result pyval :=
  match dict_get key d with
  | Some v => Ok v
  | None => Raise (Exception "KeyError" ("'" ++ key ++ "'"))
  end.

(** The loop of [create_vector_db_payload] from position [i] of
    [enumerate(records)]: the dict literal reads [record['id']],
    [record['fields']], [texts[i]] and [vectors[i]], in this order. *)
Fixpoint create_from (i : nat) (records : list (list (string * pyval)))
    (texts : list string) (vectors : list vector)
    : result (list payload_dict) :=
  match records with
  | [] => Ok []
  | record :: rest =>
      match dict_item "id" record with
      | Raise e => Raise e
      | Ok record_id =>
          match dict_item "fields" record with
          | Raise e => Raise e
          | Ok record_fields =>
              match texts !! i with
              | None =>
                  Raise (Exception "IndexError" "list index out of range")
              | Some text =>
                  match vectors !! i with
                  | None =>
                      Raise (Exception "IndexError"
                               "index is out of bounds for axis 0")
                  | Some v =>
                      match create_from (S i) rest texts vectors with
                      | Raise e => Raise e
                      | Ok payload =>
                          Ok ({| pd_airtable_id := record_id;
                                 pd_original_record := record_fields;
                                 pd_searchable_text := text;
                                 pd_vector := v |} :: payload)
                      end
                  end
              end
          end
      end
  end.

(** [create_vector_db_payload(records, texts, vectors)] *)
Definition create_vector_db_payload (records : list (list (string * pyval)))
    (texts : list string) (vectors : list vector)
    : result (list payload_dict) :=
  create_from 0 records texts vectors.

(** A record has both keys the payload step reads. *)
Definition has_id_and_fields (record : list (string * pyval)) : bool :=
  match dict_get "id" record, dict_get "fields" record with
  | Some _, Some _ => true
  | _, _ => false
  end.

(** A text begins, or ends, with a white-space character. *)
Definition starts_with_space (s : string) : bool :=
  match s with
  | EmptyString => false
  | String c _ => Py.isspace c
  end.

Fixpoint ends_with_space (s : string) : bool :=
  match s with
  | EmptyString => false
  | String c EmptyString => Py.isspace c
  | String _ rest => ends_with_space rest
  end.

End Payload.

(* ===================================================================== *)
(** ** Command-line queries ([query_pinecone_db.py])                      *)
(* ===================================================================== *)

Module Cli.

(** [c.lower()] for a code point below 256: A..Z and the upper-case
    Latin-1 letters move up by 32. *)
Definition lower_char (c : ascii) : ascii :=
  let n := N_of_ascii c in
  if ((65 <=? n)%N && (n <=? 90)%N) || ((192 <=? n)%N && (n <=? 214)%N)
     || ((216 <=? n)%N && (n <=? 222)%N)
  then ascii_of_N (n + 32)
  else c.

(** [s.lower()] *)
Fixpoint lower (s : string) : string :=
  match s with
  | EmptyString => EmptyString
  | String c rest => String (lower_char c) (lower rest)
  end.

(** [query.lower() in ['quit', 'exit', 'q']] *)
Definition is_quit (query : string) : bool :=
  existsb (String.eqb (lower query)) ["quit"; "exit"; "q"].

(** [single_query(query, top_k)]: set up, embed, query, display, return
    the matches; any exception gives [[]].  [display_results] only
    prints. *)
Definition single_query (env : Backend.environ) (pc : Pinecone.client)
    (lib : Transformers) (query : string) (top_k : Z)
    : M (list ScoredVector) :=
  try_except
    (do index <- ([], Backend.setup_pinecone env pc) ;
     do query_vector <- embed_query lib query ;
     do results <- query_pinecone index query_vector top_k true ;
     ret results)
    (fun _ => ret []).

(** The inner [try] of the interactive loop: embed, query with
    [top_k=5], display; an exception is reported and the loop goes on. *)
Definition answer (lib : Transformers) (index : Index) (query : string)
    : M unit :=
  try_except
    (do query_vector <- embed_query lib query ;
     do results <- query_pinecone index query_vector 5 true ;
     ret tt)
    (fun _ => ret tt).

(** The [while True] loop of [interactive_query] over the lines that
    [input] returns; after the last line [input] raises [EOFError], which
    ends the session.  The result is the calls issued. *)
Fixpoint interactive_loop (lib : Transformers) (index : Index)
    (lines : list string) : list event :=
  match lines with
  | [] => []
  | line :: rest =>
      let query := Py.strip line in
      if is_quit query then []
      else if negb (Py.truthy_str query) then interactive_loop lib index rest
      else (trace (answer lib index query)
              ++ interactive_loop lib index rest)%list
  end.

(** [interactive_query()]: [stats] is what [index.describe_index_stats()]
    answers. *)
Definition interactive_query (env : Backend.environ) (pc : Pinecone.client)
    (stats : result unit) (lib : Transformers) (lines : list string)
    : list event :=
  match Backend.setup_pinecone env pc with
  | Raise _ => []
  | Ok index =>
      match stats with
      | Raise _ => []
      | Ok _ => interactive_loop lib index lines
      end
  end.

(** The queries of a session that reach the embedding step: the stripped
    lines that are not empty, up to the first quit word. *)
Fixpoint processed (lines : list string) : list string :=
  match lines with
  | [] => []
  | line :: rest =>
      if is_quit (Py.strip line) then []
      else if Py.truthy_str (Py.strip line)
           then Py.strip line :: processed rest
           else processed rest
  end.

End Cli.

(* ===================================================================== *)
(** ** Health endpoint ([backend/backend.py])                             *)
(* ===================================================================== *)

Module Service.
Import Backend.



(** The calls a successful search issues for generation: one, when a
    model is held. *)
Definition generation_calls (st : app_state) (prompt : string)
    : list event :=
  match gemini_model st with
  | Some _ => [EvGenerate prompt]
  | None => []
  end.

End Service.

(* ===================================================================== *)
(** ** More sample data                                                   *)
(* ===================================================================== *)

Module Fixture.
Import Ingest.

(** A record that has an id but no [fields] entry. *)
Definition no_fields : list (string * pyval) := [("id", PStr "r9")].

(** A record whose [fields] entry is null. *)
Definition null_fields : list (string * pyval) :=
  [("id", PStr "r8"); ("fields", PNone)].

(** A library whose model cannot be constructed. *)
Definition broken_lib : Transformers :=
  {| load_model := fun _ => Raise (Exception "OSError" "model not found") |}.

Definition env_ok : Backend.environ :=
  {| Backend.PINECONE_API_KEY := Some "pc-key";
     Backend.GEMINI_API_KEY := Some "gm-key" |}.

Definition env_empty : Backend.environ :=
  {| Backend.PINECONE_API_KEY := None; Backend.GEMINI_API_KEY := None |}.


Definition ada_result : Backend.SearchResult :=
  {| Backend.score := 1;
     Backend.id := "r1";
     Backend.metadata := [("airtable_id", "r1");
                          ("searchable_text", "Name: Ada. Role: Engineer")] |}.

End Fixture.

(* ===================================================================== *)
(** ** Facts about strings                                                *)
(* ===================================================================== *)

Section StringFacts.

Lemma lstrip_all_space s : Py.all_space s = true -> Py.lstrip s = EmptyString.
Proof.
  induction s as [|c s IH]; simpl; [reflexivity|].
  intros H. apply andb_true_iff in H as [Hc Hs].
  rewrite Hc. exact (IH Hs).
Qed.

Lemma strip_all_space s : Py.all_space s = true -> Py.strip s = EmptyString.
Proof.
  intros H. unfold Py.strip. rewrite (lstrip_all_space s H). reflexivity.
Qed.

Lemma rstrip_keeps_head c s :
  Py.isspace c = false -> Py.rstrip (String c s) <> EmptyString.
Proof.
  intros Hc. simpl. destruct (Py.rstrip s); [rewrite Hc|]; discriminate.
Qed.

Lemma lstrip_not_all_space s :
  Py.all_space s = false ->
  exists c r, Py.lstrip s = String c r /\ Py.isspace c = false.
Proof.
  induction s as [|c s IH]; simpl; [discriminate|].
  destruct (Py.isspace c) eqn:Hc; simpl.
  - exact IH.
  - intros _. exists c, s. split; [reflexivity | exact Hc].
Qed.

Lemma strip_truthy s :
  Py.all_space s = false -> Py.truthy_str (Py.strip s) = true.
Proof.
  intros H. destruct (lstrip_not_all_space s H) as (c & r & Hl & Hc).
  unfold Py.strip. rewrite Hl.
  pose proof (rstrip_keeps_head c r Hc) as Hne.
  destruct (Py.rstrip (String c r)); [contradiction | reflexivity].
Qed.

Lemma strip_blank s :
  Py.all_space s = true -> Py.truthy_str (Py.strip s) = false.
Proof. intros H. rewrite (strip_all_space s H). reflexivity. Qed.

Lemma prefix_app a b : String.prefix a (a ++ b) = true.
Proof.
  induction a as [|c a IH]; simpl.
  - destruct b; reflexivity.
  - destruct (ascii_dec c c) as [_|Hn]; [exact IH | contradiction].
Qed.

Lemma contains_unfold needle s :
  Py.contains needle s
  = String.prefix needle s
    || match s with
       | EmptyString => false
       | String _ rest => Py.contains needle rest
       end.
Proof. destruct s; reflexivity. Qed.

Lemma contains_here a b : Py.contains a (a ++ b) = true.
Proof. rewrite contains_unfold, prefix_app. reflexivity. Qed.

Lemma contains_skip needle pre s :
  Py.contains needle s = true -> Py.contains needle (pre ++ s) = true.
Proof.
  intros H. induction pre as [|c pre IH]; simpl; [exact H|].
  rewrite IH. apply orb_true_r.
Qed.

Lemma contains_middle needle pre suf :
  Py.contains needle (pre ++ needle ++ suf) = true.
Proof. apply contains_skip, contains_here. Qed.

End StringFacts.

(* ===================================================================== *)
(** ** The text normalizer                                                *)
(* ===================================================================== *)

Section Normalizer.
Import Ingest.

Lemma str_items_omap items :
  str_items items
  = omap (fun i => match i with PStr s => Some s | _ => None end) items.
Proof.
  induction items as [|i items IH]; [reflexivity|].
  destruct i; simpl; rewrite IH; reflexivity.
Qed.

Lemma text_parts_spec fields :
  text_parts fields = map Spec.fragment (List.filter Spec.eligible fields).
Proof.
  induction fields as [|[field_name value] fields IH]; [reflexivity|].
  unfold Spec.eligible, Spec.fragment in *.
  destruct value as [| b | z | r | s | items | entries]; simpl;
    try (rewrite IH; reflexivity).
  change (forallb (fun i => match i with PStr _ => true | _ => false end) items)
    with (forallb isinstance_str items).
  destruct (forallb isinstance_str items); simpl.
  - rewrite IH, str_items_omap. reflexivity.
  - exact IH.
Qed.

Lemma prepare_text_well_formed record :
  Spec.well_formed record = true ->
  prepare_text record = Ok (Spec.normalize (Spec.fields_of record)).
Proof.
  unfold Spec.well_formed, prepare_text, Spec.fields_of, Spec.normalize.
  destruct (dict_get "fields" record) as [[]|]; try discriminate; intros _;
    rewrite text_parts_spec; reflexivity.
Qed.

Lemma normalize_no_eligible record :
  Spec.no_eligible_field record = true ->
  Spec.normalize (Spec.fields_of record) = EmptyString.
Proof.
  unfold Spec.no_eligible_field, Spec.normalize.
  generalize (Spec.fields_of record) as fields.
  intros fields H.
  replace (List.filter Spec.eligible fields) with (@nil (string * pyval));
    [reflexivity|].
  induction fields as [|f fields IH]; [reflexivity|].
  simpl in *. apply andb_true_iff in H as [Hf Hr].
  destruct (Spec.eligible f); [discriminate | exact (IH Hr)].
Qed.

(** C2. For every record whose [fields] is a mapping, the normalizer's
    text is the specification's: the fragments [field_name: value] of
    exactly the fields whose value is a scalar or a list of strings (lists
    joined with [", "]), in field order, joined with [". "] and stripped;
    and the record with fields Name = Ada, Role = Engineer normalizes to
    "Name: Ada. Role: Engineer". *)
Theorem normalizer_refines_spec :
  (forall fields,
      text_parts fields = map Spec.fragment (List.filter Spec.eligible fields))
  /\ (forall record fields,
        dict_get "fields" record = Some (PDict fields) ->
        prepare_text record = Ok (Spec.normalize fields))
  /\ prepare_texts_for_encoding [Sample.ada] = Ok ["Name: Ada. Role: Engineer"].
Proof.
  split; [exact text_parts_spec|]. split; [|reflexivity].
  intros record fields H. unfold prepare_text, Spec.normalize.
  rewrite H, text_parts_spec. reflexivity.
Qed.

Lemma normalizer_refines_spec_witness :
  dict_get "fields" Sample.ada
  = Some (PDict [("Name", PStr "Ada"); ("Role", PStr "Engineer")])
  /\ prepare_text Sample.ada
     = Ok (Spec.normalize [("Name", PStr "Ada"); ("Role", PStr "Engineer")]).
Proof.
  split; [reflexivity|].
  apply (proj1 (proj2 normalizer_refines_spec) Sample.ada). reflexivity.
Defined.

(** C9. For every list of records (each with [fields] absent or a
    mapping), the normalizer returns, without raising, exactly one text
    per record, in record order: the output is as long as the input, and a
    record with no eligible field yields the empty string at its
    position. *)
Theorem normalizer_total (records : list (list (string * pyval))) :
  forallb Spec.well_formed records = true ->
  exists texts,
    prepare_texts_for_encoding records = Ok texts
    /\ length texts = length records
    /\ forall (i : nat) record,
         records !! i = Some record ->
         Spec.no_eligible_field record = true ->
         texts !! i = Some EmptyString.
Proof.
  induction records as [|record records IH]; simpl; intros Hwf.
  - exists []. repeat split. intros i record H. destruct i; discriminate.
  - apply andb_true_iff in Hwf as [Hr Hrest].
    destruct (IH Hrest) as (texts & Heq & Hlen & Hempty).
    rewrite (prepare_text_well_formed record Hr), Heq.
    eexists. split; [reflexivity|]. split; [simpl; congruence|].
    intros [|i] record' Hi Hno; simpl in *.
    + inversion Hi; subst. rewrite (normalize_no_eligible _ Hno). reflexivity.
    + exact (Hempty i record' Hi Hno).
Qed.

Lemma normalizer_total_witness :
  exists texts,
    prepare_texts_for_encoding [Sample.ada; Sample.attachments_only] = Ok texts
    /\ length texts = 2%nat
    /\ forall (i : nat) record,
         [Sample.ada; Sample.attachments_only] !! i = Some record ->
         Spec.no_eligible_field record = true ->
         texts !! i = Some EmptyString.
Proof.
  apply (normalizer_total [Sample.ada; Sample.attachments_only]).
  reflexivity.
Defined.

End Normalizer.

(* ===================================================================== *)
(** ** The embedding engine                                               *)
(* ===================================================================== *)

Section Embedding.

Lemma embed_query_trace lib query :
  trace (embed_query lib query) = [EvLoadModel EMBEDDING_MODEL_NAME]
  \/ trace (embed_query lib query)
     = [EvLoadModel EMBEDDING_MODEL_NAME; EvEncode [query]].
Proof.
  unfold embed_query, call, bind, trace.
  destruct (load_model lib EMBEDDING_MODEL_NAME) as [model|e]; [|left; reflexivity].
  destruct (encode model [query]) as [[|v vs]|e]; right; reflexivity.
Qed.

Lemma embed_query_ok_trace lib query v :
  outcome (embed_query lib query) = Ok v ->
  trace (embed_query lib query)
  = [EvLoadModel EMBEDDING_MODEL_NAME; EvEncode [query]].
Proof.
  unfold embed_query, call, bind, trace, outcome.
  destruct (load_model lib EMBEDDING_MODEL_NAME) as [model|e]; [|discriminate].
  destruct (encode model [query]) as [[|w ws]|e]; simpl; intros H;
    [discriminate | reflexivity | discriminate].
Qed.

Lemma embed_query_loads lib query :
  model_loads (trace (embed_query lib query)) = 1%nat.
Proof. destruct (embed_query_trace lib query) as [H|H]; rewrite H; reflexivity. Qed.

Lemma model_loads_app t1 t2 :
  model_loads (t1 ++ t2) = (model_loads t1 + model_loads t2)%nat.
Proof. unfold model_loads. rewrite List.filter_app, length_app. reflexivity. Qed.

Lemma embed_calls_loads lib queries :
  model_loads (embed_calls lib queries) = length queries.
Proof.
  induction queries as [|q queries IH]; [reflexivity|].
  unfold embed_calls in *. cbn [flat_map].
  rewrite model_loads_app, embed_query_loads, IH. reflexivity.
Qed.

Lemma generate_vectors_trace lib texts :
  trace (generate_vectors lib texts) = [EvLoadModel EMBEDDING_MODEL_NAME]
  \/ trace (generate_vectors lib texts)
     = [EvLoadModel EMBEDDING_MODEL_NAME; EvEncode texts].
Proof.
  unfold generate_vectors, call, bind, trace.
  destruct (load_model lib EMBEDDING_MODEL_NAME) as [model|e]; [|left; reflexivity].
  destruct (encode model texts) as [[|v vs]|e]; right; reflexivity.
Qed.

(** C5, refuted as stated: two consecutive query-time embeddings in one
    process construct the model twice. *)
Lemma embed_query_reloads_model : ~ Spec.model_loaded_at_most_once.
Proof.
  intros H. specialize (H Sample.toy_lib ["first query"; "second query"]).
  vm_compute in H. lia.
Qed.

(** C5, as the code has it: batch ingestion constructs the model once per
    [generate_vectors] call and hands the whole batch to that instance in
    a single [encode] call; the query-time [embed_query] constructs a model
    on every call, so [n] embedded queries construct [n] models. *)
Theorem model_loaded_once_per_call :
  (forall lib texts,
      model_loads (trace (generate_vectors lib texts)) = 1%nat
      /\ (trace (generate_vectors lib texts)
            = [EvLoadModel EMBEDDING_MODEL_NAME; EvEncode texts]
          \/ trace (generate_vectors lib texts)
             = [EvLoadModel EMBEDDING_MODEL_NAME]))
  /\ (forall lib query, model_loads (trace (embed_query lib query)) = 1%nat)
  /\ (forall lib queries,
        model_loads (embed_calls lib queries) = length queries).
Proof.
  split; [|split; [exact embed_query_loads | exact embed_calls_loads]].
  intros lib texts.
  destruct (generate_vectors_trace lib texts) as [H|H]; rewrite H;
    split; auto.
Qed.

End Embedding.

(* ===================================================================== *)
(** ** The search endpoint                                                *)
(* ===================================================================== *)

Section Search.
Import Backend.

Lemma search_endpoint_blank lib st request :
  Py.all_space (query request) = true ->
  search_endpoint lib st request
  = ([], Raise (match pinecone_index st with
                | None => HTTPException 500 "Pinecone not initialized"
                | Some _ => HTTPException 400 "Query cannot be empty"
                end)).
Proof.
  intros H. unfold search_endpoint.
  destruct (pinecone_index st); [|reflexivity].
  rewrite (strip_blank _ H). reflexivity.
Qed.

Lemma search_endpoint_run lib st index request :
  pinecone_index st = Some index ->
  Py.all_space (query request) = false ->
  search_endpoint lib st request
  = try_except (search_body lib st index request) search_handler.
Proof.
  intros Hi Hq. unfold search_endpoint. rewrite Hi, (strip_truthy _ Hq).
  reflexivity.
Qed.

Lemma search_endpoint_not_blank lib st request response :
  outcome (search_endpoint lib st request) = Ok response ->
  exists index,
    pinecone_index st = Some index /\ Py.all_space (query request) = false.
Proof.
  intros H. destruct (Py.all_space (query request)) eqn:Hq.
  - rewrite (search_endpoint_blank lib st request Hq) in H. discriminate.
  - destruct (pinecone_index st) as [index|] eqn:Hi; [eauto|].
    unfold search_endpoint in H. rewrite Hi in H. discriminate.
Qed.

Lemma generate_ai_response_total st q rs :
  exists answer, outcome (generate_ai_response st q rs) = Ok answer.
Proof.
  unfold generate_ai_response, try_except, outcome.
  destruct (generate st (build_prompt q rs)) as [t [a|e]]; simpl; eauto.
Qed.

Lemma generate_ai_response_fallback st q rs e :
  outcome (generate st (build_prompt q rs)) = Raise e ->
  outcome (generate_ai_response st q rs) = Ok (fallback (length rs)).
Proof.
  unfold generate_ai_response, try_except, outcome.
  destruct (generate st (build_prompt q rs)) as [t [a|e']]; simpl;
    [discriminate | reflexivity].
Qed.

Lemma fallback_reports_count n :
  fallback n <> EmptyString /\ Py.contains (Py.str_len n) (fallback n) = true.
Proof.
  split; [discriminate|]. unfold fallback. apply contains_middle.
Qed.

(** The success path of the endpoint, read backwards. *)
Lemma search_endpoint_ok lib st request response :
  outcome (search_endpoint lib st request) = Ok response ->
  exists index query_vector matches answer,
    pinecone_index st = Some index
    /\ outcome (embed_query lib (query request)) = Ok query_vector
    /\ ix_query index query_vector (top_k request) true NAMESPACE = Ok matches
    /\ outcome (generate_ai_response st (query request)
                  (map to_search_result matches)) = Ok answer
    /\ response = {| results := map to_search_result matches;
                     response_query := query request;
                     total_results := Z.of_nat (length (map to_search_result matches));
                     ai_response := answer |}.
Proof.
  intros H.
  destruct (search_endpoint_not_blank _ _ _ _ H) as (index & Hi & Hq).
  rewrite (search_endpoint_run lib st index request Hi Hq) in H.
  unfold search_body, query_pinecone, call, bind, try_except, outcome in H.
  destruct (embed_query lib (query request)) as [t1 [qv|e1]] eqn:He;
    [|destruct e1; discriminate].
  destruct (ix_query index qv (top_k request) true NAMESPACE)
    as [matches|e2] eqn:Hm; [|destruct e2; discriminate].
  destruct (generate_ai_response st (query request)
              (map to_search_result matches)) as [t3 [answer|e3]] eqn:Hg;
    [|destruct e3; discriminate].
  simpl in H. inversion H; subst.
  exists index, qv, matches, answer.
  rewrite Hg. repeat split; assumption || reflexivity.
Qed.

(** Before startup has set the index handle, the first guard answers, for
    a blank query too. *)
Example blank_query_before_startup :
  search_endpoint Sample.toy_lib Sample.uninitialized (SearchRequest_of "" None)
  = ([], Raise (HTTPException 500 "Pinecone not initialized")).
Proof. reflexivity. Qed.

Lemma startup_sets_globals env pc genai st :
  startup_event env pc genai = Ok st ->
  exists index model,
    pinecone_index st = Some index /\ gemini_model st = Some model.
Proof.
  unfold startup_event.
  destruct (setup_pinecone env pc) as [index|e]; [|discriminate].
  destruct (setup_gemini env genai) as [model|e]; [|discriminate].
  intros H. inversion H; subst. exists index, model. split; reflexivity.
Qed.

Lemma metadata_or_empty_default md :
  metadata_or_empty md = match md with Some d => d | None => [] end.
Proof. destruct md as [[|kv rest]|]; reflexivity. Qed.

Lemma search_endpoint_trace lib st index request qv :
  pinecone_index st = Some index ->
  Py.all_space (query request) = false ->
  outcome (embed_query lib (query request)) = Ok qv ->
  exists rest,
    trace (search_endpoint lib st request)
    = EvLoadModel EMBEDDING_MODEL_NAME :: EvEncode [query request]
      :: EvIndexQuery NAMESPACE (top_k request) true :: rest.
Proof.
  intros Hi Hq He.
  rewrite (search_endpoint_run lib st index request Hi Hq).
  pose proof (embed_query_ok_trace lib (query request) qv He) as Ht.
  unfold search_body, query_pinecone, call, bind, try_except, trace, outcome in *.
  destruct (embed_query lib (query request)) as [t1 r1].
  simpl in He, Ht. subst t1 r1.
  destruct (ix_query index qv (top_k request) true NAMESPACE) as [matches|e2].
  - destruct (generate_ai_response st (query request)
                (map to_search_result matches)) as [t3 [answer|e3]].
    + eexists. simpl. reflexivity.
    + destruct e3; eexists; simpl; reflexivity.
  - destruct e2; eexists; simpl; reflexivity.
Qed.

(** C1. The answer synthesizer never raises.  If the generative-model
    call fails (no model, a raising call, or a response whose text cannot
    be read), it returns the fallback text, which is not empty, depends
    only on the number of results and contains that number; and the search
    request that reached generation succeeds, with the ranked results as
    the index returned them and the fallback as answer. *)
Theorem generation_failure_degrades :
  (forall st q rs,
      exists answer, outcome (generate_ai_response st q rs) = Ok answer)
  /\ (forall st q rs e,
      outcome (generate st (build_prompt q rs)) = Raise e ->
      outcome (generate_ai_response st q rs) = Ok (fallback (length rs))
      /\ fallback (length rs) <> EmptyString
      /\ Py.contains (Py.str_len (length rs)) (fallback (length rs)) = true)
  /\ (forall lib st request index qv matches e,
        pinecone_index st = Some index ->
        Py.all_space (query request) = false ->
        outcome (embed_query lib (query request)) = Ok qv ->
        ix_query index qv (top_k request) true NAMESPACE = Ok matches ->
        outcome (generate st (build_prompt (query request)
                                (map to_search_result matches))) = Raise e ->
        outcome (search_endpoint lib st request)
        = Ok {| results := map to_search_result matches;
                response_query := query request;
                total_results := Z.of_nat (length matches);
                ai_response := fallback (length matches) |}).
Proof.
  split; [exact generate_ai_response_total|]. split.
  - intros st q rs e H. split; [exact (generate_ai_response_fallback _ _ _ _ H)|].
    apply fallback_reports_count.
  - intros lib st request index qv matches e Hi Hq He Hm Hg.
    rewrite (search_endpoint_run lib st index request Hi Hq).
    apply generate_ai_response_fallback in Hg.
    unfold search_body, query_pinecone, call, bind, try_except, outcome in *.
    destruct (embed_query lib (query request)) as [t1 r1].
    simpl in He. subst r1. rewrite Hm.
    destruct (generate_ai_response st (query request)
                (map to_search_result matches)) as [t3 r3].
    simpl in Hg. subst r3. simpl. rewrite !length_map. reflexivity.
Qed.

Lemma generation_failure_degrades_witness :
  exists response,
    outcome (search_endpoint Sample.toy_lib (Sample.state Sample.failing_model)
               (SearchRequest_of "engineer" (Some 2)))
    = Ok response
    /\ length (results response) = 2%nat
    /\ ai_response response = fallback 2.
Proof.
  eexists. split.
  - apply (proj2 (proj2 generation_failure_degrades) Sample.toy_lib
             (Sample.state Sample.failing_model)
             (SearchRequest_of "engineer" (Some 2))
             (Pinecone.Index_of Sample.loaded_store INDEX_NAME)
             [1; 0]%Q
             (match ix_query (Pinecone.Index_of Sample.loaded_store INDEX_NAME)
                      [1; 0]%Q 2 true NAMESPACE with
              | Ok matches => matches
              | Raise _ => []
              end)
             (Exception "ResourceExhausted" "quota exceeded"));
      vm_compute; reflexivity.
  - split; vm_compute; reflexivity.
Defined.

(** C3. A request whose query is empty or all white space is rejected
    before any call is issued: no model is loaded, nothing is encoded, the
    index is not queried.  In every state in which the index handle is set
    - every state startup leaves - the rejection is the client error 400
    "Query cannot be empty". *)
Theorem blank_query_rejected lib st request :
  Py.all_space (query request) = true ->
  trace (search_endpoint lib st request) = []
  /\ (exists e, outcome (search_endpoint lib st request) = Raise e)
  /\ (forall index,
        pinecone_index st = Some index ->
        outcome (search_endpoint lib st request)
        = Raise (HTTPException 400 "Query cannot be empty"))
  /\ (forall env pc genai,
        startup_event env pc genai = Ok st ->
        outcome (search_endpoint lib st request)
        = Raise (HTTPException 400 "Query cannot be empty")).
Proof.
  intros H. rewrite (search_endpoint_blank lib st request H).
  split; [reflexivity|]. split; [eauto|].
  assert (Hset : forall index, pinecone_index st = Some index ->
            outcome (@nil event,
                     @Raise SearchResponse
                       (match pinecone_index st with
                        | None => HTTPException 500 "Pinecone not initialized"
                        | Some _ => HTTPException 400 "Query cannot be empty"
                        end))
            = Raise (HTTPException 400 "Query cannot be empty")).
  { intros index Hi. rewrite Hi. reflexivity. }
  split; [exact Hset|].
  intros env pc genai Hs.
  destruct (startup_sets_globals _ _ _ _ Hs) as (index & _ & Hi & _).
  exact (Hset index Hi).
Qed.

Lemma blank_query_rejected_witness :
  search_endpoint Sample.toy_lib (Sample.state Sample.echo_model)
    (SearchRequest_of "   " None)
  = ([], Raise (HTTPException 400 "Query cannot be empty")).
Proof.
  pose proof (blank_query_rejected Sample.toy_lib
                (Sample.state Sample.echo_model)
                (SearchRequest_of "   " None) eq_refl) as (Ht & _ & H400 & _).
  specialize (H400 _ eq_refl).
  destruct (search_endpoint Sample.toy_lib (Sample.state Sample.echo_model)
              (SearchRequest_of "   " None)) as [t r].
  simpl in Ht, H400. subst. reflexivity.
Defined.

(** C4, refuted as stated: a request with [top_k = 0] and a proper query
    is embedded and sent to the index; what comes back is the index's
    refusal, wrapped as server error 500. *)
Lemma top_k_not_validated : ~ Spec.rejects_nonpositive_top_k.
Proof.
  intros H.
  destruct (H Sample.toy_lib (Sample.state Sample.echo_model)
              (Pinecone.Index_of Sample.loaded_store INDEX_NAME)
              (SearchRequest_of "engineer" (Some 0))) as [Ht _].
  - reflexivity.
  - vm_compute. discriminate.
  - vm_compute in Ht. discriminate.
Qed.

(** C4, as the code has it: [top_k] is 5 when the request leaves it out,
    and the endpoint does not look at its sign.  Once the index handle is
    set and the query is not blank, the query is embedded first and
    [top_k] is then handed unchanged to the index query; if the index
    raises, the request fails with server error 500 "Search failed: ...",
    after those calls. *)
Theorem top_k_passed_through :
  (forall q, top_k (SearchRequest_of q None) = 5)
  /\ (forall lib st request index qv,
        pinecone_index st = Some index ->
        Py.all_space (query request) = false ->
        outcome (embed_query lib (query request)) = Ok qv ->
        (exists rest,
            trace (search_endpoint lib st request)
            = EvLoadModel EMBEDDING_MODEL_NAME :: EvEncode [query request]
              :: EvIndexQuery NAMESPACE (top_k request) true :: rest)
        /\ (forall cls msg,
              ix_query index qv (top_k request) true NAMESPACE
              = Raise (Exception cls msg) ->
              search_endpoint lib st request
              = ([EvLoadModel EMBEDDING_MODEL_NAME; EvEncode [query request];
                  EvIndexQuery NAMESPACE (top_k request) true],
                 Raise (HTTPException 500 ("Search failed: " ++ msg))))).
Proof.
  split; [reflexivity|].
  intros lib st request index qv Hi Hq He.
  split; [exact (search_endpoint_trace lib st index request qv Hi Hq He)|].
  intros cls msg Hm.
  rewrite (search_endpoint_run lib st index request Hi Hq).
  pose proof (embed_query_ok_trace lib (query request) qv He) as Ht.
  unfold search_body, query_pinecone, call, bind, try_except, trace, outcome in *.
  destruct (embed_query lib (query request)) as [t1 r1].
  simpl in He, Ht. subst t1 r1. rewrite Hm. reflexivity.
Qed.

Lemma top_k_passed_through_witness :
  search_endpoint Sample.toy_lib (Sample.state Sample.echo_model)
    (SearchRequest_of "engineer" (Some (-1)))
  = ([EvLoadModel EMBEDDING_MODEL_NAME; EvEncode ["engineer"];
      EvIndexQuery NAMESPACE (-1) true],
     Raise (HTTPException 500
              "Search failed: top_k must be a positive integer")).
Proof.
  apply (proj2 (proj2 top_k_passed_through Sample.toy_lib
                  (Sample.state Sample.echo_model)
                  (SearchRequest_of "engineer" (Some (-1)))
                  (Pinecone.Index_of Sample.loaded_store INDEX_NAME)
                  [1; 0]%Q eq_refl eq_refl eq_refl)
               "PineconeApiException" "top_k must be a positive integer").
  vm_compute. reflexivity.
Defined.

(** C10. In every response of the search endpoint, the results are the
    index's matches in order, each with the match's id and score and with
    the match's metadata when it has one and the empty mapping when it has
    none; and [total_results] is the number of results. *)
Theorem response_metadata_never_null lib st request response :
  outcome (search_endpoint lib st request) = Ok response ->
  total_results response = Z.of_nat (length (results response))
  /\ exists index query_vector matches,
       pinecone_index st = Some index
       /\ ix_query index query_vector (top_k request) true NAMESPACE
          = Ok matches
       /\ Forall2 (fun m r =>
                     id r = sv_id m /\ score r = sv_score m
                     /\ metadata r = match sv_metadata m with
                                     | Some md => md
                                     | None => []
                                     end)
                  matches (results response).
Proof.
  intros H.
  destruct (search_endpoint_ok lib st request response H)
    as (index & qv & matches & answer & Hi & _ & Hm & _ & ->).
  split; [reflexivity|].
  exists index, qv, matches. split; [exact Hi|]. split; [exact Hm|].
  simpl. clear. induction matches as [|m matches IH]; simpl; constructor.
  - repeat split. apply metadata_or_empty_default.
  - exact IH.
Qed.

Lemma response_metadata_never_null_witness :
  exists response,
    outcome (search_endpoint Sample.toy_lib Sample.bare_state
               (SearchRequest_of "engineer" None)) = Ok response
    /\ total_results response = Z.of_nat (length (results response))
    /\ map metadata (results response) = [[]].
Proof.
  eexists. split; [vm_compute; reflexivity|].
  split; [|reflexivity].
  apply (response_metadata_never_null Sample.toy_lib Sample.bare_state
           (SearchRequest_of "engineer" None)).
  vm_compute. reflexivity.
Defined.

End Search.

(* ===================================================================== *)
(** ** The vector index                                                   *)
(* ===================================================================== *)

Section VectorIndex.
Import Pinecone.

Lemma has_index_true pc name ix :
  indexes pc !! name = Some ix -> has_index pc name = true.
Proof.
  intros H. unfold has_index. apply bool_decide_eq_true. rewrite H. eauto.
Qed.

Lemma has_index_false pc name :
  indexes pc !! name = None -> has_index pc name = false.
Proof.
  intros H. unfold has_index. apply bool_decide_eq_false. rewrite H.
  intros [x Hx]. discriminate.
Qed.

Lemma ensure_index_absent pc :
  indexes pc !! INDEX_NAME = None ->
  ensure_index pc
  = ({| similarity := similarity pc;
        indexes := <[INDEX_NAME := {| dimension := 384; metric := "cosine";
                                      namespaces := ∅ |}]> (indexes pc) |},
     Ok tt).
Proof.
  intros H. unfold ensure_index, create_index.
  rewrite (has_index_false _ _ H). reflexivity.
Qed.

Lemma ensure_index_present pc ix :
  indexes pc !! INDEX_NAME = Some ix -> ensure_index pc = (pc, Ok tt).
Proof.
  intros H. unfold ensure_index. rewrite (has_index_true _ _ _ H). reflexivity.
Qed.

(** C6. [ensure_index] creates the index of the configured name, empty,
    with dimension 384 and the cosine metric, exactly when the store has
    no index of that name; when it has one, the store is left as it is,
    whatever the dimension and the metric of that index are, and nothing
    is raised. *)
Theorem ensure_index_by_name_only pc :
  (indexes pc !! INDEX_NAME = None ->
   ensure_index pc
   = ({| similarity := similarity pc;
         indexes := <[INDEX_NAME := {| dimension := 384; metric := "cosine";
                                       namespaces := ∅ |}]> (indexes pc) |},
      Ok tt))
  /\ (forall ix,
        indexes pc !! INDEX_NAME = Some ix ->
        ensure_index pc = (pc, Ok tt)
        /\ indexes (fst (ensure_index pc)) !! INDEX_NAME = Some ix).
Proof.
  split; [exact (ensure_index_absent pc)|].
  intros ix H. rewrite (ensure_index_present pc ix H).
  split; [reflexivity | exact H].
Qed.

Lemma ensure_index_by_name_only_witness :
  ensure_index Sample.foreign_store = (Sample.foreign_store, Ok tt)
  /\ (dimension <$> indexes (fst (ensure_index Sample.foreign_store))
                      !! INDEX_NAME) = Some 3%Z
  /\ has_index (fst (ensure_index Sample.empty_store)) INDEX_NAME = true.
Proof.
  destruct (proj2 (ensure_index_by_name_only Sample.foreign_store)
              {| dimension := 3; metric := "euclidean"; namespaces := ∅ |}
              eq_refl) as [Hsame Hkept].
  split; [exact Hsame|]. split; [rewrite Hkept; reflexivity|].
  rewrite (proj1 (ensure_index_by_name_only Sample.empty_store) eq_refl).
  reflexivity.
Defined.

(** *** Upsert *)

Lemma put_union (entries : gmap string stored) r :
  put entries r
  = {[ r_id r := {| values := r_values r; metadata := r_metadata r |} ]}
    ∪ entries.
Proof. unfold put. apply insert_union_singleton_l. Qed.

Lemma fold_put_union batch (entries : gmap string stored) :
  fold_left put batch entries = fold_left put batch ∅ ∪ entries.
Proof.
  revert entries. induction batch as [|r batch IH]; intros entries; simpl.
  - symmetry. apply (left_id_L ∅ (∪)).
  - rewrite (IH (put entries r)), (IH (put ∅ r)), !put_union.
    rewrite (right_id_L ∅ (∪)). apply (assoc_L (∪)).
Qed.

Lemma fold_put_idempotent batch (entries : gmap string stored) :
  fold_left put batch (fold_left put batch entries)
  = fold_left put batch entries.
Proof.
  rewrite (fold_put_union batch (fold_left put batch entries)).
  rewrite (fold_put_union batch entries).
  rewrite (assoc_L (∪)), (idemp_L (∪)). reflexivity.
Qed.

Lemma upsert_batch_idempotent ix ns batch :
  upsert (upsert ix ns batch) ns batch = upsert ix ns batch.
Proof.
  unfold upsert. simpl. rewrite lookup_insert_eq. simpl.
  rewrite fold_put_idempotent, insert_insert_eq. reflexivity.
Qed.

Lemma size_insert_same (entries : gmap string stored) i x y :
  size (<[i:=x]> entries) = size (<[i:=y]> entries).
Proof. rewrite !map_size_insert. reflexivity. Qed.

Lemma total_vector_count_insert ix_dim ix_met
    (spaces : gmap string (gmap string stored)) ns entries :
  total_vector_count {| dimension := ix_dim; metric := ix_met;
                        namespaces := <[ns := entries]> spaces |}
  = (size entries
     + total_vector_count {| dimension := ix_dim; metric := ix_met;
                             namespaces := delete ns spaces |})%nat.
Proof.
  unfold total_vector_count. simpl.
  rewrite <- (insert_delete_eq spaces).
  rewrite map_fold_insert_L; [reflexivity| |apply lookup_delete_eq].
  intros. lia.
Qed.

Lemma upsert_overwrite ix ns e1 e2 :
  r_id e1 = r_id e2 ->
  (namespaces (upsert (upsert ix ns [e1]) ns [e2]) !! ns
     ≫= (fun entries => entries !! r_id e2))
  = Some {| values := r_values e2; metadata := r_metadata e2 |}
  /\ total_vector_count (upsert (upsert ix ns [e1]) ns [e2])
     = total_vector_count (upsert ix ns [e1]).
Proof.
  intros Hid. unfold upsert. simpl. rewrite !lookup_insert_eq. simpl.
  split.
  - unfold put at 1. rewrite lookup_insert_eq. reflexivity.
  - rewrite insert_insert_eq, !total_vector_count_insert.
    f_equal. unfold put. rewrite Hid, insert_insert_eq.
    apply size_insert_same.
Qed.

Lemma insert_into_vector_db_unfold pc payload :
  exists ix,
    indexes (fst (ensure_index pc)) !! INDEX_NAME = Some ix
    /\ similarity (fst (ensure_index pc)) = similarity pc
    /\ snd (ensure_index pc) = Ok tt
    /\ (forall ix0, indexes pc !! INDEX_NAME = Some ix0 -> ix = ix0)
    /\ insert_into_vector_db pc payload
       = ({| similarity := similarity pc;
             indexes := <[INDEX_NAME := upsert ix "airtable-namespace"
                                          (pinecone_records payload)]>
                          (indexes (fst (ensure_index pc))) |},
          Ok tt).
Proof.
  unfold insert_into_vector_db.
  destruct (indexes pc !! INDEX_NAME) as [ix0|] eqn:H.
  - rewrite (ensure_index_present pc ix0 H). simpl. exists ix0. unfold upsert_index. rewrite H.
    repeat split; auto. intros ix1 H1. congruence.
  - rewrite (ensure_index_absent pc H). simpl.
    eexists. unfold upsert_index. simpl. rewrite lookup_insert_eq.
    repeat split; auto. intros ix1 H1. discriminate.
Qed.

Lemma insert_into_vector_db_retry pc payload :
  insert_into_vector_db (fst (insert_into_vector_db pc payload)) payload
  = insert_into_vector_db pc payload.
Proof.
  destruct (insert_into_vector_db_unfold pc payload)
    as (ix & Hix & Hsim & _ & _ & Hrun).
  rewrite Hrun. simpl.
  match goal with |- insert_into_vector_db ?pc1 _ = _ =>
    destruct (insert_into_vector_db_unfold pc1 payload)
      as (ix' & Hix' & _ & _ & Hsame & Hrun')
  end.
  rewrite Hrun'. simpl.
  assert (Hlook : ix' = upsert ix "airtable-namespace" (pinecone_records payload)).
  { apply Hsame. simpl. apply lookup_insert_eq. }
  subst ix'.
  match goal with |- context [ensure_index ?pc1] =>
    rewrite (ensure_index_present pc1
               (upsert ix "airtable-namespace" (pinecone_records payload)))
      by (simpl; apply lookup_insert_eq)
  end.
  simpl.
  rewrite upsert_batch_idempotent, insert_insert_eq. reflexivity.
Qed.

(** C7. Upsert is by id, last write wins: after an entry and then a
    second entry with the same id are upserted into a namespace, the
    namespace holds under that id the values and metadata of the second
    write, and the index's vector count is what it was after the first
    write; upserting a whole batch again leaves the index as the first
    upsert left it, and so does a second run of [insert_into_vector_db]
    with the same payload. *)
Theorem upsert_idempotent :
  (forall ix ns e1 e2,
      r_id e1 = r_id e2 ->
      (namespaces (upsert (upsert ix ns [e1]) ns [e2]) !! ns
         ≫= (fun entries => entries !! r_id e2))
      = Some {| values := r_values e2; metadata := r_metadata e2 |}
      /\ total_vector_count (upsert (upsert ix ns [e1]) ns [e2])
         = total_vector_count (upsert ix ns [e1]))
  /\ (forall ix ns batch,
        upsert (upsert ix ns batch) ns batch = upsert ix ns batch)
  /\ (forall pc payload,
        insert_into_vector_db (fst (insert_into_vector_db pc payload)) payload
        = insert_into_vector_db pc payload
        /\ snd (insert_into_vector_db pc payload) = Ok tt).
Proof.
  split; [exact upsert_overwrite|]. split; [exact upsert_batch_idempotent|].
  intros pc payload. split; [apply insert_into_vector_db_retry|].
  destruct (insert_into_vector_db_unfold pc payload) as (ix & _ & _ & _ & _ & H).
  rewrite H. reflexivity.
Qed.

Lemma upsert_idempotent_witness :
  stored_entry
    (fst (upsert_index Sample.loaded_store INDEX_NAME NAMESPACE
            [ {| r_id := "r1"; r_values := [0; 0]%Q; r_metadata := [] |} ]))
    INDEX_NAME NAMESPACE "r1"
  = Some {| values := [0; 0]%Q; metadata := [] |}
  /\ total_vector_count
       (upsert (upsert {| dimension := 384; metric := "cosine";
                          namespaces := ∅ |}
                  NAMESPACE
                  [ {| r_id := "r1"; r_values := [1; 0]%Q;
                       r_metadata := [] |} ])
               NAMESPACE
               [ {| r_id := "r1"; r_values := [0; 0]%Q;
                    r_metadata := [] |} ])
     = 1%nat.
Proof.
  split; [vm_compute; reflexivity|].
  rewrite (proj2 (proj1 upsert_idempotent
                    {| dimension := 384; metric := "cosine";
                       namespaces := ∅ |}
                    NAMESPACE
                    {| r_id := "r1"; r_values := [1; 0]%Q; r_metadata := [] |}
                    {| r_id := "r1"; r_values := [0; 0]%Q; r_metadata := [] |}
                    eq_refl)).
  vm_compute. reflexivity.
Defined.

(** *** Query *)

Lemma insert_desc_Forall (P : Q -> Prop) m l :
  P (sv_score m) -> Forall P (map sv_score l) ->
  Forall P (map sv_score (insert_desc m l)).
Proof.
  intros Hm. induction l as [|x l IH]; simpl; intros Hl.
  - constructor; [exact Hm | constructor].
  - destruct (Qle_bool (sv_score x) (sv_score m)); simpl.
    + constructor; [exact Hm | exact Hl].
    + inversion Hl; subst. constructor; [assumption | apply IH; assumption].
Qed.

Lemma insert_desc_sorted m l :
  Spec.non_increasing (map sv_score l) ->
  Spec.non_increasing (map sv_score (insert_desc m l)).
Proof.
  unfold Spec.non_increasing.
  induction l as [|x l IH]; simpl; intros Hs.
  - constructor; constructor.
  - inversion Hs as [|? ? Hrest Hall]; subst.
    destruct (Qle_bool (sv_score x) (sv_score m)) eqn:Hle; simpl.
    + apply Qle_bool_iff in Hle. constructor; [exact Hs|].
      constructor; [exact Hle|].
      eapply Forall_impl; [exact Hall|].
      intros b Hb. simpl in Hb. exact (Qle_trans _ _ _ Hb Hle).
    + constructor; [exact (IH Hrest)|].
      apply insert_desc_Forall; [|exact Hall].
      apply Qlt_le_weak, Qnot_le_lt. intros Hc.
      apply Qle_bool_iff in Hc. congruence.
Qed.

Lemma rank_sorted l : Spec.non_increasing (map sv_score (rank l)).
Proof.
  induction l as [|m l IH]; simpl.
  - constructor.
  - apply insert_desc_sorted, IH.
Qed.

Lemma non_increasing_take n scores :
  Spec.non_increasing scores -> Spec.non_increasing (take n scores).
Proof.
  unfold Spec.non_increasing. intros Hs. revert n.
  induction Hs as [|x l Hs IH Hall]; intros [|n]; simpl; try constructor.
  - apply IH.
  - apply Forall_take, Hall.
Qed.

Lemma query_positive sim ix v top_k include_metadata ns :
  (0 < top_k)%Z ->
  exists matches,
    query sim ix v top_k include_metadata ns = Ok matches
    /\ Spec.non_increasing (map sv_score matches)
    /\ (Z.of_nat (length matches) <= top_k)%Z
    /\ (namespaces ix !! ns = None \/ namespaces ix !! ns = Some ∅ ->
        matches = []).
Proof.
  intros Hk. unfold query.
  destruct (Z.leb_spec top_k 0) as [Hle|_]; [lia|].
  destruct (namespaces ix !! ns) as [entries|] eqn:Hns.
  - eexists. split; [reflexivity|]. split; [|split].
    + rewrite <- firstn_map. apply non_increasing_take, rank_sorted.
    + rewrite length_take. lia.
    + intros [Hn|Hn]; [discriminate|]. inversion Hn; subst.
      rewrite map_to_list_empty. simpl. destruct (Z.to_nat top_k); reflexivity.
  - exists []. repeat split; [constructor | simpl; lia].
Qed.

(** C8. A query with a positive [top_k] against an index of the store
    returns (it does not raise) a sequence whose scores are non-increasing
    and whose length is at most [top_k]; when the namespace is absent or
    empty the sequence is empty.  [query_pinecone] returns the index's
    answer for the configured namespace as it is. *)
Theorem query_ranked_and_bounded pc name ix v top_k include_metadata :
  indexes pc !! name = Some ix ->
  (0 < top_k)%Z ->
  (forall ns,
      exists matches,
        ix_query (Index_of pc name) v top_k include_metadata ns = Ok matches
        /\ Spec.non_increasing (map sv_score matches)
        /\ (Z.of_nat (length matches) <= top_k)%Z
        /\ (namespaces ix !! ns = None \/ namespaces ix !! ns = Some ∅ ->
            matches = []))
  /\ outcome (query_pinecone (Index_of pc name) v top_k include_metadata)
     = ix_query (Index_of pc name) v top_k include_metadata NAMESPACE.
Proof.
  intros Hix Hk. split; [|reflexivity].
  intros ns. simpl. rewrite Hix.
  apply query_positive, Hk.
Qed.

Lemma query_ranked_and_bounded_witness :
  (exists matches,
      outcome (query_pinecone (Index_of Sample.loaded_store INDEX_NAME)
                 [1; 0]%Q 2 true) = Ok matches
      /\ Spec.non_increasing (map sv_score matches)
      /\ (Z.of_nat (length matches) <= 2)%Z)
  /\ ix_query (Index_of Sample.loaded_store INDEX_NAME) [1; 0]%Q 2 true
       "no-such-namespace" = Ok [].
Proof.
  destruct (query_ranked_and_bounded Sample.loaded_store INDEX_NAME
              (match indexes Sample.loaded_store !! INDEX_NAME with
               | Some ix => ix
               | None => {| dimension := 0; metric := ""; namespaces := ∅ |}
               end)
              [1; 0]%Q 2 true) as [Hq Hcode].
  - vm_compute. reflexivity.
  - lia.
  - split.
    + rewrite Hcode.
      destruct (Hq NAMESPACE) as (matches & Hm & Hs & Hl & _).
      exists matches. repeat split; assumption.
    + destruct (Hq "no-such-namespace") as (matches & Hm & _ & _ & He).
      rewrite Hm. f_equal. apply He. left. vm_compute. reflexivity.
Defined.

End VectorIndex.

(* ===================================================================== *)
(** ** More on the text normalizer                                        *)
(* ===================================================================== *)

Section NormalizerMore.
Import Ingest.

Lemma prepare_texts_closed records :
  forallb Spec.well_formed records = true ->
  prepare_texts_for_encoding records
  = Ok (map (fun r => Spec.normalize (Spec.fields_of r)) records).
Proof.
  induction records as [|record records IH]; simpl; [reflexivity|].
  intros H. apply andb_true_iff in H as [Hr Hrest].
  rewrite (prepare_text_well_formed record Hr), (IH Hrest). reflexivity.
Qed.

Lemma prepare_text_ill_formed record :
  Spec.well_formed record = false ->
  exists msg, prepare_text record = Raise (Exception "AttributeError" msg).
Proof.
  unfold Spec.well_formed, prepare_text.
  destruct (dict_get "fields" record) as [[]|]; try discriminate;
    intros _; eexists; reflexivity.
Qed.

(** X1. A batch is normalized as a whole or not at all: the call raises
    [AttributeError] exactly when some record holds under ['fields']
    something that is not a mapping. *)
Theorem prepare_texts_raises_iff records :
  forallb Spec.well_formed records = false
  <-> exists msg,
        prepare_texts_for_encoding records
        = Raise (Exception "AttributeError" msg).
Proof.
  split.
  - induction records as [|record records IH]; simpl; [discriminate|].
    destruct (Spec.well_formed record) eqn:Hr; simpl.
    + intros Hrest. destruct (IH Hrest) as [msg Hmsg].
      rewrite (prepare_text_well_formed record Hr), Hmsg. eauto.
    + intros _. destruct (prepare_text_ill_formed record Hr) as [msg Hmsg].
      rewrite Hmsg. eauto.
  - intros [msg Hmsg].
    destruct (forallb Spec.well_formed records) eqn:Hall; [|reflexivity].
    rewrite (prepare_texts_closed records Hall) in Hmsg. discriminate.
Qed.

Lemma lstrip_no_leading s : Payload.starts_with_space (Py.lstrip s) = false.
Proof.
  induction s as [|c s IH]; simpl; [reflexivity|].
  destruct (Py.isspace c) eqn:Hc; [exact IH | simpl; exact Hc].
Qed.

Lemma rstrip_keeps_start s :
  Payload.starts_with_space s = false ->
  Payload.starts_with_space (Py.rstrip s) = false.
Proof.
  destruct s as [|c s]; simpl; [reflexivity|].
  intros Hc. destruct (Py.rstrip s); [rewrite Hc|]; simpl; exact Hc.
Qed.

Lemma rstrip_no_trailing s : Payload.ends_with_space (Py.rstrip s) = false.
Proof.
  induction s as [|c s IH]; simpl; [reflexivity|].
  destruct (Py.rstrip s) as [|c' r].
  - destruct (Py.isspace c) eqn:Hc; simpl; [reflexivity | exact Hc].
  - exact IH.
Qed.

Lemma strip_clean s :
  Payload.starts_with_space (Py.strip s) = false
  /\ Payload.ends_with_space (Py.strip s) = false.
Proof.
  unfold Py.strip. split.
  - apply rstrip_keeps_start, lstrip_no_leading.
  - apply rstrip_no_trailing.
Qed.

Lemma prepare_text_clean record text :
  prepare_text record = Ok text ->
  Payload.starts_with_space text = false
  /\ Payload.ends_with_space text = false.
Proof.
  unfold prepare_text.
  destruct (dict_get "fields" record) as [[]|]; try discriminate;
    intros H; inversion H; apply strip_clean.
Qed.

(** X2. No text the normalizer returns begins or ends with a white-space
    character, whatever the field names and values are. *)
Theorem prepared_texts_are_stripped records texts :
  prepare_texts_for_encoding records = Ok texts ->
  Forall (fun text => Payload.starts_with_space text = false
                      /\ Payload.ends_with_space text = false) texts.
Proof.
  revert texts. induction records as [|record records IH]; simpl; intros texts.
  - intros H. inversion H. constructor.
  - destruct (prepare_text record) as [text|e] eqn:Ht; [|discriminate].
    destruct (prepare_texts_for_encoding records) as [rest|e]; [|discriminate].
    intros H. inversion H; subst. constructor.
    + exact (prepare_text_clean record text Ht).
    + apply IH. reflexivity.
Qed.

Lemma prepared_texts_are_stripped_witness :
  Forall (fun text => Payload.starts_with_space text = false
                      /\ Payload.ends_with_space text = false)
         ["Name: Ada. Role: Engineer"; EmptyString].
Proof.
  apply (prepared_texts_are_stripped [Sample.ada; Sample.attachments_only]).
  reflexivity.
Defined.

(** X3. A field that is neither a scalar nor a list of strings leaves no
    mark on the text: two records whose fields differ only by such a field
    normalize to the same text. *)
Theorem ineligible_field_is_invisible record1 record2 before field after :
  Spec.eligible field = false ->
  dict_get "fields" record1 = Some (PDict (before ++ field :: after)) ->
  dict_get "fields" record2 = Some (PDict (before ++ after)) ->
  prepare_text record1 = prepare_text record2.
Proof.
  intros Hf H1 H2. unfold prepare_text. rewrite H1, H2.
  rewrite !text_parts_spec, !List.filter_app. simpl. rewrite Hf. reflexivity.
Qed.

Lemma ineligible_field_is_invisible_witness :
  prepare_text
    [("fields", PDict [("Name", PStr "Ada");
                       ("Files", PList [PDict [("url", PStr "u")]]);
                       ("Role", PStr "Engineer")])]
  = prepare_text Sample.ada.
Proof.
  apply (ineligible_field_is_invisible _ _
           [("Name", PStr "Ada")]
           ("Files", PList [PDict [("url", PStr "u")]])
           [("Role", PStr "Engineer")]); reflexivity.
Defined.

End NormalizerMore.

(* ===================================================================== *)
(** ** Payload assembly                                                   *)
(* ===================================================================== *)

Section PayloadFacts.
Import Ingest Payload.

Lemma has_id_and_fields_items record :
  has_id_and_fields record = true ->
  exists record_id record_fields,
    dict_get "id" record = Some record_id
    /\ dict_get "fields" record = Some record_fields
    /\ dict_item "id" record = Ok record_id
    /\ dict_item "fields" record = Ok record_fields.
Proof.
  unfold has_id_and_fields, dict_item.
  destruct (dict_get "id" record) as [a|]; [|discriminate].
  destruct (dict_get "fields" record) as [b|]; [|discriminate].
  intros _. exists a, b. repeat split.
Qed.

Lemma create_from_ok i records texts vectors :
  forallb has_id_and_fields records = true ->
  (i + length records <= length texts)%nat ->
  (i + length records <= length vectors)%nat ->
  exists payload,
    create_from i records texts vectors = Ok payload
    /\ length payload = length records
    /\ forall (j : nat) record,
         records !! j = Some record ->
         exists p,
           payload !! j = Some p
           /\ dict_get "id" record = Some (pd_airtable_id p)
           /\ dict_get "fields" record = Some (pd_original_record p)
           /\ texts !! (i + j)%nat = Some (pd_searchable_text p)
           /\ vectors !! (i + j)%nat = Some (pd_vector p).
Proof.
  revert i. induction records as [|record records IH]; intros i Hall Ht Hv.
  - exists []. repeat split. intros j record H. destruct j; discriminate.
  - simpl in *. apply andb_true_iff in Hall as [Hr Hrest].
    destruct (has_id_and_fields_items record Hr)
      as (rid & rfields & Hid & Hfields & Hiid & Hifields).
    rewrite Hiid, Hifields.
    destruct (lookup_lt_is_Some_2 texts i) as [text Htext]; [lia|].
    destruct (lookup_lt_is_Some_2 vectors i) as [v Hvec]; [lia|].
    rewrite Htext, Hvec.
    destruct (IH (S i) Hrest) as (payload & Hp & Hlen & Hpoint); [lia | lia |].
    rewrite Hp. eexists. split; [reflexivity|]. split; [simpl; congruence|].
    intros [|j] record' Hj; simpl in *.
    + inversion Hj; subst. eexists. split; [reflexivity|]. simpl.
      rewrite Nat.add_0_r. repeat split; assumption.
    + destruct (Hpoint j record' Hj) as (p & H1 & H2 & H3 & H4 & H5).
      exists p. replace (i + S j)%nat with (S i + j)%nat by lia.
      repeat split; assumption.
Qed.

Lemma create_from_inv i records texts vectors payload :
  create_from i records texts vectors = Ok payload ->
  forallb has_id_and_fields records = true
  /\ forall j : nat, (j < length records)%nat ->
       is_Some (texts !! (i + j)%nat) /\ is_Some (vectors !! (i + j)%nat).
Proof.
  revert i payload.
  induction records as [|record records IH]; intros i payload; simpl.
  - intros _. split; [reflexivity|]. intros j Hj. lia.
  - unfold dict_item, has_id_and_fields.
    destruct (dict_get "id" record) as [rid|]; [|discriminate].
    destruct (dict_get "fields" record) as [rfields|]; [|discriminate].
    destruct (texts !! i) as [text|] eqn:Htext; [|discriminate].
    destruct (vectors !! i) as [v|] eqn:Hvec; [|discriminate].
    destruct (create_from (S i) records texts vectors) as [rest|e] eqn:Hrest;
      [|discriminate].
    intros _. destruct (IH (S i) rest Hrest) as [Hall Hbounds].
    split; [exact Hall|].
    intros [|j] Hj.
    + rewrite Nat.add_0_r, Htext, Hvec. split; eauto.
    + replace (i + S j)%nat with (S i + j)%nat by lia. apply Hbounds. lia.
Qed.

(** X4. When every record has an ['id'] and a ['fields'] entry and there
    are at least as many texts and vectors as records,
    [create_vector_db_payload] returns one payload dict per record, in
    record order, pairing record [i]'s id and fields with [texts[i]] and
    [vectors[i]]; texts and vectors beyond the last record are ignored. *)
Theorem payload_pairs_by_position records texts vectors :
  forallb has_id_and_fields records = true ->
  (length records <= length texts)%nat ->
  (length records <= length vectors)%nat ->
  exists payload,
    create_vector_db_payload records texts vectors = Ok payload
    /\ length payload = length records
    /\ forall (i : nat) record,
         records !! i = Some record ->
         exists p,
           payload !! i = Some p
           /\ dict_get "id" record = Some (pd_airtable_id p)
           /\ dict_get "fields" record = Some (pd_original_record p)
           /\ texts !! i = Some (pd_searchable_text p)
           /\ vectors !! i = Some (pd_vector p).
Proof.
  intros Hall Ht Hv. unfold create_vector_db_payload.
  exact (create_from_ok 0 records texts vectors Hall Ht Hv).
Qed.

Lemma payload_pairs_by_position_witness :
  exists payload,
    create_vector_db_payload [Sample.ada; Sample.attachments_only]
      ["Name: Ada. Role: Engineer"; EmptyString; "spare"]
      [[1; 0]%Q; [0; 1]%Q] = Ok payload
    /\ length payload = 2%nat.
Proof.
  destruct (payload_pairs_by_position [Sample.ada; Sample.attachments_only]
              ["Name: Ada. Role: Engineer"; EmptyString; "spare"]
              [[1; 0]%Q; [0; 1]%Q])
    as (payload & Hp & Hlen & _);
    [reflexivity | simpl; lia | simpl; lia |].
  exists payload. split; assumption.
Defined.

(** X5. [create_vector_db_payload] returns a payload only if every record
    has an ['id'] and a ['fields'] entry and neither the texts nor the
    vectors are fewer than the records: a missing key or a short list
    makes the whole call raise. *)
Theorem payload_needs_keys_and_lengths records texts vectors payload :
  create_vector_db_payload records texts vectors = Ok payload ->
  forallb has_id_and_fields records = true
  /\ (length records <= length texts)%nat
  /\ (length records <= length vectors)%nat.
Proof.
  unfold create_vector_db_payload. intros H.
  destruct (create_from_inv 0 records texts vectors payload H) as [Hall Hb].
  split; [exact Hall|].
  destruct records as [|record records]; [simpl; split; lia|].
  destruct (Hb (length records)) as [Ht Hv]; [simpl; lia|].
  simpl in Ht, Hv.
  apply lookup_lt_is_Some_1 in Ht. apply lookup_lt_is_Some_1 in Hv.
  simpl. split; lia.
Qed.

Lemma payload_needs_keys_and_lengths_witness :
  forallb has_id_and_fields [Sample.ada] = true
  /\ (length [Sample.ada] <= length ["Name: Ada. Role: Engineer"])%nat
  /\ (length [Sample.ada] <= length [[1; 0]%Q])%nat.
Proof.
  apply (payload_needs_keys_and_lengths [Sample.ada]
           ["Name: Ada. Role: Engineer"] [[1; 0]%Q]
           [ {| pd_airtable_id := PStr "r1";
                pd_original_record :=
                  PDict [("Name", PStr "Ada"); ("Role", PStr "Engineer")];
                pd_searchable_text := "Name: Ada. Role: Engineer";
                pd_vector := [1; 0]%Q |} ]).
  reflexivity.
Defined.

(** X6. The two ingestion steps disagree on a record without a ['fields']
    entry: the normalizer turns it into the empty text, the payload step
    raises on it, whatever texts and vectors it is given. *)
Theorem record_without_fields_breaks_payload records record texts vectors :
  In record records ->
  dict_get "fields" record = None ->
  prepare_text record = Ok EmptyString
  /\ exists e, create_vector_db_payload records texts vectors = Raise e.
Proof.
  intros Hin Hnone. split.
  - unfold prepare_text. rewrite Hnone. reflexivity.
  - destruct (create_vector_db_payload records texts vectors)
      as [payload|e] eqn:Hc; [|eauto].
    destruct (create_from_inv 0 records texts vectors payload Hc) as [Hall _].
    exfalso. rewrite forallb_forall in Hall. specialize (Hall record Hin).
    unfold has_id_and_fields in Hall. rewrite Hnone in Hall.
    destruct (dict_get "id" record); discriminate.
Qed.

Lemma record_without_fields_breaks_payload_witness :
  prepare_text Fixture.no_fields = Ok EmptyString
  /\ exists e,
       create_vector_db_payload [Sample.ada; Fixture.no_fields]
         ["Name: Ada. Role: Engineer"; EmptyString] [[1; 0]%Q; [0; 1]%Q]
       = Raise e.
Proof.
  apply (record_without_fields_breaks_payload
           [Sample.ada; Fixture.no_fields] Fixture.no_fields).
  - right. left. reflexivity.
  - reflexivity.
Defined.

Lemma prepare_texts_pointwise records texts :
  prepare_texts_for_encoding records = Ok texts ->
  length texts = length records
  /\ forall (i : nat) record,
       records !! i = Some record ->
       exists text, texts !! i = Some text /\ prepare_text record = Ok text.
Proof.
  revert texts. induction records as [|record records IH]; simpl; intros texts.
  - intros H. inversion H. split; [reflexivity|].
    intros i record Hi. destruct i; discriminate.
  - destruct (prepare_text record) as [text|e] eqn:Ht; [|discriminate].
    destruct (prepare_texts_for_encoding records) as [rest|e]; [|discriminate].
    intros H. inversion H; subst.
    destruct (IH rest eq_refl) as [Hlen Hpoint].
    split; [simpl; congruence|].
    intros [|i] record' Hi; simpl in *.
    + inversion Hi; subst. eauto.
    + exact (Hpoint i record' Hi).
Qed.

(** X7. Normalization followed by payload assembly, as [main] chains them:
    for records that each have an id and a mapping under ['fields'], and
    at least as many vectors as records, both steps succeed and the
    payload dict at position [i] carries the normalized text of record [i]
    together with [vectors[i]]. *)
Theorem normalized_text_reaches_payload records vectors :
  forallb has_id_and_fields records = true ->
  forallb Spec.well_formed records = true ->
  (length records <= length vectors)%nat ->
  exists texts payload,
    prepare_texts_for_encoding records = Ok texts
    /\ create_vector_db_payload records texts vectors = Ok payload
    /\ length payload = length records
    /\ forall (i : nat) record,
         records !! i = Some record ->
         exists p,
           payload !! i = Some p
           /\ prepare_text record = Ok (pd_searchable_text p)
           /\ dict_get "id" record = Some (pd_airtable_id p)
           /\ vectors !! i = Some (pd_vector p).
Proof.
  intros Hkeys Hwf Hv.
  pose proof (prepare_texts_closed records Hwf) as Htexts.
  set (texts := map (fun r => Spec.normalize (Spec.fields_of r)) records) in *.
  destruct (prepare_texts_pointwise records texts Htexts) as [Hlen Hpoint].
  destruct (create_from_ok 0 records texts vectors Hkeys)
    as (payload & Hp & Hpl & Hpp);
    [simpl; rewrite Hlen; lia | simpl; lia |].
  exists texts, payload. split; [exact Htexts|]. split; [exact Hp|].
  split; [exact Hpl|].
  intros i record Hi.
  destruct (Hpp i record Hi) as (p & H1 & H2 & _ & H4 & H5).
  destruct (Hpoint i record Hi) as (text & Ht & Hprep).
  simpl in H4. rewrite Ht in H4. inversion H4; subst.
  exists p. repeat split; assumption.
Qed.

Lemma normalized_text_reaches_payload_witness :
  exists texts payload,
    prepare_texts_for_encoding [Sample.ada; Sample.attachments_only] = Ok texts
    /\ create_vector_db_payload [Sample.ada; Sample.attachments_only] texts
         [[1; 0]%Q; [0; 1]%Q] = Ok payload
    /\ length payload = 2%nat.
Proof.
  destruct (normalized_text_reaches_payload
              [Sample.ada; Sample.attachments_only] [[1; 0]%Q; [0; 1]%Q])
    as (texts & payload & Ht & Hp & Hlen & _);
    [reflexivity | reflexivity | simpl; lia |].
  exists texts, payload. repeat split; assumption.
Defined.

End PayloadFacts.

(* ===================================================================== *)
(** ** More on the embedding engine                                       *)
(* ===================================================================== *)

Section EmbeddingMore.

(** X8. [embed_query] returns the first vector the freshly loaded model
    gives for the one-element batch [[query]], and nothing else makes it
    succeed; when the model cannot be loaded the call raises the loader's
    exception and nothing is encoded. *)
Theorem embed_query_first_vector lib query :
  (forall v,
      outcome (embed_query lib query) = Ok v
      <-> exists model rest,
            load_model lib EMBEDDING_MODEL_NAME = Ok model
            /\ encode model [query] = Ok (v :: rest))
  /\ (forall e,
        load_model lib EMBEDDING_MODEL_NAME = Raise e ->
        embed_query lib query = ([EvLoadModel EMBEDDING_MODEL_NAME], Raise e)).
Proof.
  unfold embed_query, call, bind, outcome. split.
  - intros v. split.
    + destruct (load_model lib EMBEDDING_MODEL_NAME) as [model|e];
        [|discriminate].
      destruct (encode model [query]) as [[|w ws]|e] eqn:He; simpl;
        intros H; inversion H; subst. exists model, ws. split; auto.
    + intros (model & rest & Hl & He). rewrite Hl, He. reflexivity.
  - intros e Hl. rewrite Hl. reflexivity.
Qed.

Lemma embed_query_first_vector_witness :
  embed_query Fixture.broken_lib "engineer"
  = ([EvLoadModel EMBEDDING_MODEL_NAME],
     Raise (Exception "OSError" "model not found")).
Proof.
  apply (proj2 (embed_query_first_vector Fixture.broken_lib "engineer")).
  reflexivity.
Defined.

(** X9. [generate_vectors] returns exactly what the one [encode] call over
    the whole batch answered, provided that answer is not empty; an empty
    answer - as for an empty batch - makes it raise [IndexError] after the
    model was loaded and the batch encoded. *)
Theorem generate_vectors_whole_batch lib texts :
  (forall vectors,
      outcome (generate_vectors lib texts) = Ok vectors
      <-> vectors <> []
          /\ exists model,
               load_model lib EMBEDDING_MODEL_NAME = Ok model
               /\ encode model texts = Ok vectors)
  /\ (forall model,
        load_model lib EMBEDDING_MODEL_NAME = Ok model ->
        encode model texts = Ok [] ->
        generate_vectors lib texts
        = ([EvLoadModel EMBEDDING_MODEL_NAME; EvEncode texts],
           Raise (Exception "IndexError" "tuple index out of range"))).
Proof.
  unfold generate_vectors, call, bind, outcome. split.
  - intros vectors. split.
    + destruct (load_model lib EMBEDDING_MODEL_NAME) as [model|e];
        [|discriminate].
      destruct (encode model texts) as [[|w ws]|e] eqn:He; simpl;
        intros H; inversion H; subst.
      split; [discriminate|]. exists model. split; auto.
    + intros (Hne & model & Hl & He). rewrite Hl, He.
      destruct vectors; [contradiction | reflexivity].
  - intros model Hl He. rewrite Hl, He. reflexivity.
Qed.

Lemma generate_vectors_whole_batch_witness :
  generate_vectors Sample.toy_lib []
  = ([EvLoadModel EMBEDDING_MODEL_NAME; EvEncode []],
     Raise (Exception "IndexError" "tuple index out of range")).
Proof.
  apply (proj2 (generate_vectors_whole_batch Sample.toy_lib []) Sample.toy_model);
    reflexivity.
Defined.

End EmbeddingMore.

(* ===================================================================== *)
(** ** Command-line queries                                               *)
(* ===================================================================== *)

Section CliFacts.
Import Cli.

(** X10. [single_query] never raises, and when the set-up fails (no API
    key, or no index of the configured name) it returns the empty list
    without loading the model or querying anything. *)
Theorem single_query_never_raises env pc lib query top_k :
  (exists matches,
      outcome (single_query env pc lib query top_k) = Ok matches)
  /\ (forall e,
        Backend.setup_pinecone env pc = Raise e ->
        single_query env pc lib query top_k = ([], Ok [])).
Proof.
  unfold single_query, query_pinecone, call, bind, try_except, ret, outcome.
  split.
  - destruct (Backend.setup_pinecone env pc) as [index|e]; simpl; [|eauto].
    destruct (embed_query lib query) as [t [qv|e]]; simpl; [|eauto].
    destruct (ix_query index qv top_k true NAMESPACE); simpl; eauto.
  - intros e He. rewrite He. reflexivity.
Qed.

Lemma single_query_never_raises_witness :
  single_query Fixture.env_empty Sample.loaded_store Sample.toy_lib
    "engineer" 3 = ([], Ok []).
Proof.
  apply (proj2 (single_query_never_raises Fixture.env_empty
                  Sample.loaded_store Sample.toy_lib "engineer" 3)
               (Exception "OSError" "PINECONE_API_KEY environment variable not set. Please configure your Pinecone API key.")).
  reflexivity.
Defined.

(** X11. Once set-up has given an index handle, [single_query] returns the
    index's matches after exactly one model load, one encoding and one
    index query; a failure of the embedding or of the index query is
    turned into the empty list, so the caller cannot tell it from a query
    without matches. *)
Theorem single_query_hides_failures env pc lib query top_k index :
  Backend.setup_pinecone env pc = Ok index ->
  (forall qv matches,
      outcome (embed_query lib query) = Ok qv ->
      ix_query index qv top_k true NAMESPACE = Ok matches ->
      single_query env pc lib query top_k
      = ([EvLoadModel EMBEDDING_MODEL_NAME; EvEncode [query];
          EvIndexQuery NAMESPACE top_k true], Ok matches))
  /\ (forall qv e,
        outcome (embed_query lib query) = Ok qv ->
        ix_query index qv top_k true NAMESPACE = Raise e ->
        single_query env pc lib query top_k
        = ([EvLoadModel EMBEDDING_MODEL_NAME; EvEncode [query];
            EvIndexQuery NAMESPACE top_k true], Ok []))
  /\ (forall e,
        outcome (embed_query lib query) = Raise e ->
        single_query env pc lib query top_k
        = (trace (embed_query lib query), Ok [])).
Proof.
  intros Hs.
  unfold single_query, query_pinecone, call, bind, try_except, ret.
  rewrite Hs. simpl. repeat split.
  - intros qv matches He Hm.
    pose proof (embed_query_ok_trace lib query qv He) as Ht.
    unfold outcome, trace in *.
    destruct (embed_query lib query) as [t r]. simpl in *. subst.
    rewrite Hm. reflexivity.
  - intros qv e He Hm.
    pose proof (embed_query_ok_trace lib query qv He) as Ht.
    unfold outcome, trace in *.
    destruct (embed_query lib query) as [t r]. simpl in *. subst.
    rewrite Hm. reflexivity.
  - intros e He. unfold outcome, trace in *.
    destruct (embed_query lib query) as [t r]. simpl in *. subst.
    simpl. rewrite app_nil_r. reflexivity.
Qed.

Lemma single_query_hides_failures_witness :
  single_query Fixture.env_ok Sample.loaded_store Fixture.broken_lib
    "engineer" 3
  = ([EvLoadModel EMBEDDING_MODEL_NAME], Ok []).
Proof.
  apply (proj2 (proj2 (single_query_hides_failures Fixture.env_ok
                         Sample.loaded_store Fixture.broken_lib "engineer" 3
                         (Pinecone.Index_of Sample.loaded_store INDEX_NAME)
                         eq_refl))
               (Exception "OSError" "model not found")).
  reflexivity.
Defined.

Lemma answer_loads lib index query :
  model_loads (trace (answer lib index query)) = 1%nat.
Proof.
  pose proof (embed_query_loads lib query) as Hl.
  unfold answer, query_pinecone, call, bind, try_except, ret, trace in *.
  destruct (embed_query lib query) as [t [qv|e]]; simpl in *.
  - destruct (ix_query index qv 5 true NAMESPACE); simpl;
      rewrite ?app_nil_r, ?model_loads_app, Hl; reflexivity.
  - rewrite app_nil_r. exact Hl.
Qed.

Lemma is_quit_blank line :
  Py.all_space line = true ->
  is_quit (Py.strip line) = false /\ Py.truthy_str (Py.strip line) = false.
Proof. intros H. rewrite (strip_all_space line H). split; reflexivity. Qed.

(** X12. In an interactive session nothing typed after a quit word
    ([quit], [exit] or [q], in any letter case, with surrounding blanks)
    is processed, and a blank line issues no call: the calls of the
    session are those of the lines before the quit word, blank lines left
    out. *)
Theorem interactive_quit_and_blank lib index before line after :
  (is_quit (Py.strip line) = true ->
   interactive_loop lib index (before ++ line :: after)
   = interactive_loop lib index before)
  /\ (Py.all_space line = true ->
      interactive_loop lib index (before ++ line :: after)
      = interactive_loop lib index (before ++ after)).
Proof.
  split; intros H; induction before as [|l before IH]; simpl.
  - rewrite H. reflexivity.
  - rewrite IH. reflexivity.
  - destruct (is_quit_blank line H) as [Hq Ht]. rewrite Hq, Ht. reflexivity.
  - rewrite IH. reflexivity.
Qed.

Lemma interactive_quit_and_blank_witness :
  interactive_loop Sample.toy_lib
    (Pinecone.Index_of Sample.loaded_store INDEX_NAME)
    (["engineer"] ++ "  QUIT " :: ["designer"])
  = interactive_loop Sample.toy_lib
      (Pinecone.Index_of Sample.loaded_store INDEX_NAME) ["engineer"]
  /\ interactive_loop Sample.toy_lib
       (Pinecone.Index_of Sample.loaded_store INDEX_NAME)
       (["engineer"] ++ "   " :: ["designer"])
     = interactive_loop Sample.toy_lib
         (Pinecone.Index_of Sample.loaded_store INDEX_NAME)
         (["engineer"] ++ ["designer"]).
Proof.
  split.
  - apply (proj1 (interactive_quit_and_blank Sample.toy_lib
                    (Pinecone.Index_of Sample.loaded_store INDEX_NAME)
                    ["engineer"] "  QUIT " ["designer"])).
    reflexivity.
  - apply (proj2 (interactive_quit_and_blank Sample.toy_lib
                    (Pinecone.Index_of Sample.loaded_store INDEX_NAME)
                    ["engineer"] "   " ["designer"])).
    reflexivity.
Defined.

Lemma interactive_loop_loads lib index lines :
  model_loads (interactive_loop lib index lines) = length (processed lines).
Proof.
  induction lines as [|line lines IH]; simpl; [reflexivity|].
  destruct (is_quit (Py.strip line)); [reflexivity|].
  destruct (Py.truthy_str (Py.strip line)); simpl.
  - rewrite model_loads_app, answer_loads, IH. reflexivity.
  - exact IH.
Qed.

(** X13. An interactive session constructs the embedding model once for
    every query it processes - every non-blank line before the first quit
    word - also after a query that failed; a session whose set-up or
    statistics call fails issues no call at all. *)
Theorem interactive_session_loads env pc stats lib lines :
  (forall index,
      Backend.setup_pinecone env pc = Ok index ->
      stats = Ok tt ->
      model_loads (interactive_query env pc stats lib lines)
      = length (processed lines))
  /\ ((exists e, Backend.setup_pinecone env pc = Raise e)
      \/ (exists e, stats = Raise e) ->
      interactive_query env pc stats lib lines = []).
Proof.
  unfold interactive_query. split.
  - intros index Hs Hst. rewrite Hs, Hst. apply interactive_loop_loads.
  - intros [[e He]|[e He]].
    + rewrite He. reflexivity.
    + rewrite He. destruct (Backend.setup_pinecone env pc); reflexivity.
Qed.

Lemma interactive_session_loads_witness :
  model_loads (interactive_query Fixture.env_ok Sample.loaded_store (Ok tt)
                 Fixture.broken_lib
                 ["engineer"; ""; "designer"; "exit"; "poet"])
  = 2%nat.
Proof.
  apply (proj1 (interactive_session_loads Fixture.env_ok Sample.loaded_store
                  (Ok tt) Fixture.broken_lib
                  ["engineer"; ""; "designer"; "exit"; "poet"])
               (Pinecone.Index_of Sample.loaded_store INDEX_NAME));
    reflexivity.
Defined.

End CliFacts.

(* ===================================================================== *)
(** ** More on the search service                                         *)
(* ===================================================================== *)

Section SearchMore.
Import Backend.

Lemma generate_ai_response_trace st q rs :
  trace (generate_ai_response st q rs)
  = Service.generation_calls st (build_prompt q rs).
Proof.
  unfold generate_ai_response, generate, Service.generation_calls,
    try_except, call, bind, raise, ret, trace.
  destruct (gemini_model st) as [model|]; [|reflexivity].
  destruct (generate_content model (build_prompt q rs)) as [r|e];
    [|reflexivity].
  destruct (text r); reflexivity.
Qed.

Lemma generate_ai_response_pair st q rs :
  exists answer,
    generate_ai_response st q rs
    = (Service.generation_calls st (build_prompt q rs), Ok answer).
Proof.
  destruct (generate_ai_response_total st q rs) as [answer Ha].
  pose proof (generate_ai_response_trace st q rs) as Ht.
  exists answer. unfold outcome, trace in *.
  destruct (generate_ai_response st q rs) as [t r]. simpl in *. subst.
  reflexivity.
Qed.

(** X14. Whatever fails, [search_endpoint] raises an [HTTPException]:
    500 "Pinecone not initialized" without an index handle, 400 "Query
    cannot be empty" for a blank query, 500 "Search failed: ..." with the
    message of whatever other exception the embedding or the index query
    raised, or the [HTTPException] one of those two raised, passed on as
    it is.  The answer synthesizer never makes a request fail. *)
Theorem search_errors_are_http lib st request e :
  outcome (search_endpoint lib st request) = Raise e ->
  e = HTTPException 500 "Pinecone not initialized"
  \/ e = HTTPException 400 "Query cannot be empty"
  \/ (exists cls msg,
        e = HTTPException 500 ("Search failed: " ++ msg)
        /\ (outcome (embed_query lib (query request))
              = Raise (Exception cls msg)
            \/ exists index qv,
                 pinecone_index st = Some index
                 /\ ix_query index qv (top_k request) true NAMESPACE
                    = Raise (Exception cls msg)))
  \/ (exists code detail,
        e = HTTPException code detail
        /\ (outcome (embed_query lib (query request)) = Raise e
            \/ exists index qv,
                 pinecone_index st = Some index
                 /\ ix_query index qv (top_k request) true NAMESPACE
                    = Raise e)).
Proof.
  destruct (Py.all_space (query request)) eqn:Hq.
  - rewrite (search_endpoint_blank lib st request Hq). simpl.
    destruct (pinecone_index st); intros H; inversion H; auto.
  - destruct (pinecone_index st) as [index|] eqn:Hi.
    + rewrite (search_endpoint_run lib st index request Hi Hq).
      unfold search_body, query_pinecone, call, bind, try_except, outcome.
      destruct (embed_query lib (query request)) as [t1 [qv|e1]] eqn:He.
      * destruct (ix_query index qv (top_k request) true NAMESPACE)
          as [matches|e2] eqn:Hm.
        -- destruct (generate_ai_response_pair st (query request)
                       (map to_search_result matches)) as [answer Ha].
           rewrite Ha. simpl. discriminate.
        -- destruct e2 as [code detail|cls msg]; simpl; intros H;
             inversion H; subst.
           ++ right. right. right. exists code, detail. split; [reflexivity|].
              right. exists index, qv. split; [reflexivity | exact Hm].
           ++ right. right. left. exists cls, msg. split; [reflexivity|].
              right. exists index, qv. split; [reflexivity | exact Hm].
      * destruct e1 as [code detail|cls msg]; simpl; intros H;
          inversion H; subst.
        -- right. right. right. exists code, detail. split; [reflexivity|].
           left. reflexivity.
        -- right. right. left. exists cls, msg. split; [reflexivity|].
           left. reflexivity.
    + unfold search_endpoint. rewrite Hi. simpl. intros H. inversion H. auto.
Qed.

Lemma search_errors_are_http_witness :
  HTTPException 500 "Search failed: model not found"
  = HTTPException 500 "Pinecone not initialized"
  \/ HTTPException 500 "Search failed: model not found"
     = HTTPException 400 "Query cannot be empty"
  \/ (exists cls msg,
        HTTPException 500 "Search failed: model not found"
        = HTTPException 500 ("Search failed: " ++ msg)
        /\ (outcome (embed_query Fixture.broken_lib "engineer")
              = Raise (Exception cls msg)
            \/ exists index qv,
                 pinecone_index (Sample.state Sample.echo_model) = Some index
                 /\ ix_query index qv 5 true NAMESPACE
                    = Raise (Exception cls msg)))
  \/ (exists code detail,
        HTTPException 500 "Search failed: model not found"
        = HTTPException code detail
        /\ (outcome (embed_query Fixture.broken_lib "engineer")
              = Raise (HTTPException 500 "Search failed: model not found")
            \/ exists index qv,
                 pinecone_index (Sample.state Sample.echo_model) = Some index
                 /\ ix_query index qv 5 true NAMESPACE
                    = Raise (HTTPException 500
                               "Search failed: model not found"))).
Proof.
  apply (search_errors_are_http Fixture.broken_lib
           (Sample.state Sample.echo_model)
           (SearchRequest_of "engineer" None)).
  reflexivity.
Defined.

(** X15. A search that succeeds has issued, in this order, one model
    load, one encoding of the query alone, one index query - in the
    configured namespace, with the request's [top_k] and with metadata -
    and, when a generative model is held, one generation call whose prompt
    is built from the query and the returned results; the response echoes
    the query. *)
Theorem successful_search_calls lib st request response :
  outcome (search_endpoint lib st request) = Ok response ->
  trace (search_endpoint lib st request)
  = ([EvLoadModel EMBEDDING_MODEL_NAME; EvEncode [query request];
      EvIndexQuery NAMESPACE (top_k request) true]
     ++ Service.generation_calls st
          (build_prompt (query request) (results response)))%list
  /\ response_query response = query request.
Proof.
  intros H.
  destruct (search_endpoint_ok lib st request response H)
    as (index & qv & matches & answer & Hi & He & Hm & Hg & ->).
  destruct (search_endpoint_not_blank lib st request _ H) as (index' & _ & Hq).
  split; [|reflexivity]. simpl.
  rewrite (search_endpoint_run lib st index request Hi Hq).
  pose proof (embed_query_ok_trace lib (query request) qv He) as Ht.
  destruct (generate_ai_response_pair st (query request)
              (map to_search_result matches)) as [answer' Ha].
  unfold search_body, query_pinecone, call, bind, try_except, trace, outcome
    in *.
  destruct (embed_query lib (query request)) as [t1 r1].
  simpl in He, Ht. subst t1 r1. rewrite Hm, Ha. simpl.
  rewrite app_nil_r. reflexivity.
Qed.

Lemma successful_search_calls_witness :
  length (trace (search_endpoint Sample.toy_lib
                   (Sample.state Sample.echo_model)
                   (SearchRequest_of "engineer" None))) = 4%nat.
Proof.
  destruct (successful_search_calls Sample.toy_lib
              (Sample.state Sample.echo_model)
              (SearchRequest_of "engineer" None)
              (match outcome (search_endpoint Sample.toy_lib
                                (Sample.state Sample.echo_model)
                                (SearchRequest_of "engineer" None)) with
               | Ok response => response
               | Raise _ => {| results := []; response_query := EmptyString;
                               total_results := 0;
                               ai_response := EmptyString |}
               end)) as [Ht _].
  - vm_compute. reflexivity.
  - rewrite Ht. reflexivity.
Defined.

(** X16. When the embedding of a proper query fails, the request fails
    with status 500 and detail "Search failed: " followed by the
    exception's message, and neither the index nor the generative model
    is called. *)
Theorem embedding_failure_is_500 lib st index request cls msg :
  pinecone_index st = Some index ->
  Py.all_space (query request) = false ->
  outcome (embed_query lib (query request)) = Raise (Exception cls msg) ->
  outcome (search_endpoint lib st request)
  = Raise (HTTPException 500 ("Search failed: " ++ msg))
  /\ (trace (search_endpoint lib st request)
        = [EvLoadModel EMBEDDING_MODEL_NAME]
      \/ trace (search_endpoint lib st request)
         = [EvLoadModel EMBEDDING_MODEL_NAME; EvEncode [query request]]).
Proof.
  intros Hi Hq He.
  rewrite (search_endpoint_run lib st index request Hi Hq).
  pose proof (embed_query_trace lib (query request)) as Ht.
  unfold search_body, bind, try_except, trace, outcome in *.
  destruct (embed_query lib (query request)) as [t1 r1].
  simpl in He, Ht. subst r1. simpl. rewrite app_nil_r.
  split; [reflexivity | exact Ht].
Qed.

Lemma embedding_failure_is_500_witness :
  search_endpoint Fixture.broken_lib (Sample.state Sample.echo_model)
    (SearchRequest_of "engineer" None)
  = ([EvLoadModel EMBEDDING_MODEL_NAME],
     Raise (HTTPException 500 "Search failed: model not found")).
Proof.
  destruct (embedding_failure_is_500 Fixture.broken_lib
              (Sample.state Sample.echo_model)
              (Pinecone.Index_of Sample.loaded_store INDEX_NAME)
              (SearchRequest_of "engineer" None) "OSError" "model not found"
              eq_refl eq_refl eq_refl) as [Ho _].
  destruct (search_endpoint Fixture.broken_lib (Sample.state Sample.echo_model)
              (SearchRequest_of "engineer" None)) as [t r] eqn:E.
  simpl in Ho. subst r.
  assert (Ht : t = fst (search_endpoint Fixture.broken_lib
                          (Sample.state Sample.echo_model)
                          (SearchRequest_of "engineer" None)))
    by (rewrite E; reflexivity).
  rewrite Ht. reflexivity.
Defined.

(** X17. When every step succeeds, the response carries the generative
    model's text as it is, next to the converted matches, their number and
    the query, after exactly four calls: load, encode, index query,
    generate. *)
Theorem answer_is_model_text
    lib st request index qv matches model reply answer :
  pinecone_index st = Some index ->
  Py.all_space (query request) = false ->
  outcome (embed_query lib (query request)) = Ok qv ->
  ix_query index qv (top_k request) true NAMESPACE = Ok matches ->
  gemini_model st = Some model ->
  generate_content model
    (build_prompt (query request) (map to_search_result matches)) = Ok reply ->
  text reply = Ok answer ->
  search_endpoint lib st request
  = ([EvLoadModel EMBEDDING_MODEL_NAME; EvEncode [query request];
      EvIndexQuery NAMESPACE (top_k request) true;
      EvGenerate (build_prompt (query request)
                    (map to_search_result matches))],
     Ok {| results := map to_search_result matches;
           response_query := query request;
           total_results := Z.of_nat (length matches);
           ai_response := answer |}).
Proof.
  intros Hi Hq He Hm Hg Hr Ht.
  rewrite (search_endpoint_run lib st index request Hi Hq).
  pose proof (embed_query_ok_trace lib (query request) qv He) as Htr.
  unfold search_body, query_pinecone, generate_ai_response, generate,
    call, bind, try_except, ret, trace, outcome in *.
  destruct (embed_query lib (query request)) as [t1 r1].
  simpl in He, Htr. subst t1 r1. rewrite Hm, Hg, Hr, Ht. simpl.
  rewrite length_map. reflexivity.
Qed.

Lemma answer_is_model_text_witness :
  ai_response
    (match outcome (search_endpoint Sample.toy_lib
                      (Sample.state Sample.echo_model)
                      (SearchRequest_of "engineer" (Some 1))) with
     | Ok response => response
     | Raise _ => {| results := []; response_query := EmptyString;
                     total_results := 0; ai_response := EmptyString |}
     end) = "answer".
Proof.
  rewrite (answer_is_model_text Sample.toy_lib (Sample.state Sample.echo_model)
             (SearchRequest_of "engineer" (Some 1))
             (Pinecone.Index_of Sample.loaded_store INDEX_NAME)
             [1; 0]%Q
             (match ix_query (Pinecone.Index_of Sample.loaded_store INDEX_NAME)
                      [1; 0]%Q 1 true NAMESPACE with
              | Ok matches => matches
              | Raise _ => []
              end)
             Sample.echo_model {| text := Ok "answer" |} "answer");
    vm_compute; reflexivity.
Defined.

Lemma prefix_app_l n a b :
  String.prefix n a = true -> String.prefix n (a ++ b) = true.
Proof.
  revert a. induction n as [|c n IH]; intros a; simpl.
  - destruct (a ++ b); reflexivity.
  - destruct a as [|d a]; simpl; [discriminate|].
    destruct (ascii_dec c d); [apply IH | discriminate].
Qed.

Lemma contains_app_l n a b :
  Py.contains n a = true -> Py.contains n (a ++ b) = true.
Proof.
  induction a as [|c a IH]; rewrite contains_unfold; intros H.
  - rewrite orb_false_r in H. rewrite contains_unfold.
    rewrite (prefix_app_l n EmptyString b H). reflexivity.
  - apply orb_true_iff in H as [H|H].
    + rewrite contains_unfold, (prefix_app_l n (String c a) b H). reflexivity.
    + simpl. rewrite (IH H). apply orb_true_r.
Qed.

Lemma contains_join n sep p parts :
  In p parts -> Py.contains n p = true ->
  Py.contains n (Py.join sep parts) = true.
Proof.
  intros Hin Hp. induction parts as [|q parts IH]; [contradiction|].
  destruct parts as [|q' parts].
  - destruct Hin as [->|[]]. exact Hp.
  - change (Py.join sep (q :: q' :: parts))
      with (q ++ sep ++ Py.join sep (q' :: parts)).
    destruct Hin as [->|Hin].
    + apply contains_app_l, Hp.
    + apply contains_skip, contains_skip, IH, Hin.
Qed.

Lemma context_parts_mention i rs r :
  In r rs ->
  exists p,
    In p (context_parts i rs)
    /\ Py.contains
         (metadata_get "searchable_text" "No text available" (metadata r)) p
       = true.
Proof.
  revert i. induction rs as [|r0 rs IH]; intros i Hin; [contradiction|].
  destruct Hin as [->|Hin].
  - eexists. split; [left; reflexivity|].
    do 6 apply contains_skip. apply contains_here.
  - destruct (IH (S i) Hin) as (p & Hp & Hc).
    exists p. split; [right; exact Hp | exact Hc].
Qed.

(** X18. The prompt sent to the generative model contains the query text
    and, for every result, the text stored under its [searchable_text]
    metadata key - or the placeholder "No text available" when the result
    has no such key. *)
Theorem prompt_is_grounded q rs :
  Py.contains q (build_prompt q rs) = true
  /\ forall r,
       In r rs ->
       Py.contains
         (metadata_get "searchable_text" "No text available" (metadata r))
         (build_prompt q rs) = true.
Proof.
  unfold build_prompt. cbv zeta. split.
  - do 5 apply contains_skip. apply contains_here.
  - intros r Hin.
    destruct (context_parts_mention 1 rs r Hin) as (p & Hp & Hc).
    do 10 apply contains_skip. apply contains_app_l.
    exact (contains_join _ nl p _ Hp Hc).
Qed.

Lemma prompt_is_grounded_witness :
  Py.contains "Name: Ada. Role: Engineer"
    (build_prompt "engineer" [Fixture.ada_result]) = true.
Proof.
  apply (proj2 (prompt_is_grounded "engineer" [Fixture.ada_result])
               Fixture.ada_result).
  left. reflexivity.
Defined.



End SearchMore.

(* ===================================================================== *)
(** ** More on ingestion into the vector index                            *)
(* ===================================================================== *)

Section IngestionMore.
Import Pinecone.

Lemma pinecone_records_ids payload :
  map r_id (pinecone_records payload) = map airtable_id payload.
Proof.
  unfold pinecone_records. rewrite List.map_map. reflexivity.
Qed.

Lemma lookup_fold_put_other batch (entries : gmap string stored) k :
  ~ In k (map r_id batch) ->
  fold_left put batch entries !! k = entries !! k.
Proof.
  revert entries. induction batch as [|r batch IH]; intros entries Hk; simpl.
  - reflexivity.
  - simpl in Hk. rewrite IH by tauto.
    unfold put. apply lookup_insert_ne. tauto.
Qed.

Lemma lookup_fold_put_written batch (entries : gmap string stored) r :
  NoDup (map r_id batch) -> In r batch ->
  fold_left put batch entries !! r_id r
  = Some {| values := r_values r; metadata := r_metadata r |}.
Proof.
  revert entries. induction batch as [|r0 batch IH]; intros entries Hnd Hin;
    [contradiction|].
  simpl in *. inversion Hnd as [|? ? Hnotin Hnd']; subst.
  rewrite list_elem_of_In in Hnotin.
  destruct Hin as [->|Hin].
  - rewrite lookup_fold_put_other by exact Hnotin.
    unfold put. apply lookup_insert_eq.
  - apply IH; assumption.
Qed.

(** The store after an ingestion run, in one expression. *)
Lemma insert_into_vector_db_store pc payload :
  fst (insert_into_vector_db pc payload)
  = {| similarity := similarity pc;
       indexes :=
         <[INDEX_NAME :=
             upsert (default {| dimension := 384; metric := "cosine";
                                namespaces := ∅ |}
                       (indexes pc !! INDEX_NAME))
                    "airtable-namespace" (pinecone_records payload)]>
           (indexes pc) |}.
Proof.
  unfold insert_into_vector_db.
  destruct (indexes pc !! INDEX_NAME) as [ix0|] eqn:H.
  - rewrite (ensure_index_present pc ix0 H). unfold upsert_index.
    rewrite H. reflexivity.
  - rewrite (ensure_index_absent pc H). unfold upsert_index. simpl.
    rewrite lookup_insert_eq. simpl. rewrite insert_insert_eq. reflexivity.
Qed.

Lemma stored_entry_after pc payload ns id :
  stored_entry (fst (insert_into_vector_db pc payload)) INDEX_NAME ns id
  = if decide (ns = "airtable-namespace") then
      fold_left put (pinecone_records payload)
        (default ∅ (indexes pc !! INDEX_NAME
                      ≫= (fun ix => namespaces ix !! "airtable-namespace")))
        !! id
    else stored_entry pc INDEX_NAME ns id.
Proof.
  rewrite insert_into_vector_db_store. unfold stored_entry. simpl.
  rewrite lookup_insert_eq. simpl.
  destruct (decide (ns = "airtable-namespace")) as [->|Hns].
  - rewrite lookup_insert_eq. simpl.
    destruct (indexes pc !! INDEX_NAME) as [ix0|]; reflexivity.
  - rewrite lookup_insert_ne by congruence.
    destruct (indexes pc !! INDEX_NAME) as [ix0|]; reflexivity.
Qed.

(** X20. An ingestion run writes nowhere but under the ids of its payload
    in the namespace "airtable-namespace" of the configured index: every
    entry of another index, of another namespace, or under an id that is
    not in the payload is after the run what it was before. *)
Theorem ingestion_touches_only_its_entries pc payload name ns id :
  name <> INDEX_NAME \/ ns <> "airtable-namespace"
  \/ ~ In id (map airtable_id payload) ->
  stored_entry (fst (insert_into_vector_db pc payload)) name ns id
  = stored_entry pc name ns id.
Proof.
  intros H. destruct (decide (name = INDEX_NAME)) as [->|Hname].
  - rewrite stored_entry_after.
    destruct (decide (ns = "airtable-namespace")) as [->|Hns]; [|reflexivity].
    destruct H as [H|[H|H]]; [contradiction | contradiction |].
    rewrite lookup_fold_put_other by (rewrite pinecone_records_ids; exact H).
    unfold stored_entry.
    destruct (indexes pc !! INDEX_NAME) as [ix0|]; simpl; [|reflexivity].
    destruct (namespaces ix0 !! "airtable-namespace"); reflexivity.
  - rewrite insert_into_vector_db_store. unfold stored_entry. simpl.
    rewrite lookup_insert_ne by congruence. reflexivity.
Qed.

Lemma ingestion_touches_only_its_entries_witness :
  stored_entry
    (fst (insert_into_vector_db Sample.loaded_store
            [ {| airtable_id := "r7"; searchable_text := "Name: Di";
                 payload_vector := [1; 1]%Q |} ]))
    INDEX_NAME NAMESPACE "r2"
  = stored_entry Sample.loaded_store INDEX_NAME NAMESPACE "r2".
Proof.
  apply (ingestion_touches_only_its_entries Sample.loaded_store
           [ {| airtable_id := "r7"; searchable_text := "Name: Di";
                payload_vector := [1; 1]%Q |} ]
           INDEX_NAME NAMESPACE "r2").
  right. right. simpl. intros [H|[]]. discriminate.
Defined.

(** X21. What an ingestion run writes can be read back: when the ids of
    the payload are distinct, every item is stored under its id in the
    namespace the query side reads, with the item's vector and with a
    metadata mapping of exactly [airtable_id] and [searchable_text]; the
    key under which the answer synthesizer looks for the text of a result
    gives the item's text, not the placeholder. *)
Theorem ingested_entry_reads_back pc payload item :
  NoDup (map airtable_id payload) ->
  In item payload ->
  exists entry,
    stored_entry (fst (insert_into_vector_db pc payload))
      INDEX_NAME NAMESPACE (airtable_id item) = Some entry
    /\ values entry = payload_vector item
    /\ metadata entry = [("airtable_id", airtable_id item);
                         ("searchable_text", searchable_text item)]
    /\ Backend.metadata_get "searchable_text" "No text available"
         (metadata entry) = searchable_text item.
Proof.
  intros Hnd Hin. rewrite stored_entry_after.
  change NAMESPACE with "airtable-namespace".
  destruct (decide ("airtable-namespace" = "airtable-namespace"));
    [|contradiction].
  pose (r := {| r_id := airtable_id item;
                r_values := payload_vector item;
                r_metadata := [("airtable_id", airtable_id item);
                               ("searchable_text", searchable_text item)] |}).
  assert (Hr : In r (pinecone_records payload)).
  { unfold pinecone_records. apply in_map_iff. exists item. split; auto. }
  change (airtable_id item) with (r_id r) at 1.
  rewrite (lookup_fold_put_written (pinecone_records payload) _ r);
    [|rewrite pinecone_records_ids; exact Hnd | exact Hr].
  eexists. split; [reflexivity|]. simpl. repeat split.
Qed.

Lemma ingested_entry_reads_back_witness :
  exists entry,
    stored_entry (fst (insert_into_vector_db Sample.empty_store Sample.payload))
      INDEX_NAME NAMESPACE "r2" = Some entry
    /\ values entry = [0; 1]%Q
    /\ metadata entry = [("airtable_id", "r2");
                         ("searchable_text", "Name: Bob")]
    /\ Backend.metadata_get "searchable_text" "No text available"
         (metadata entry) = "Name: Bob".
Proof.
  apply (ingested_entry_reads_back Sample.empty_store Sample.payload
           {| airtable_id := "r2"; searchable_text := "Name: Bob";
              payload_vector := [0; 1]%Q |}).
  - apply (bool_decide_unpack (NoDup ["r1"; "r2"; "r3"])). vm_compute. exact I.
  - right. left. reflexivity.
Defined.

End IngestionMore.
